(** * Weather dashboard (streamlit_app.py): retrieval and normalisation pipeline

    A shallow embedding of [streamlit_app.py].  Python values decoded from
    JSON are an inductive type, exceptions are values of an error type, and
    every function of the script that talks to the clock, the network or the
    page is a state-passing computation over an explicit [World]. *)

From Stdlib Require Import ZArith List String Ascii Bool Lia SpecFloat DecimalString.
Import ListNotations.

Set Warnings "-register-all".

Local Open Scope string_scope.
Local Open Scope Z_scope.

(* ================================================================== *)
(** ** Python values, exceptions and the built-ins the script uses     *)
(* ================================================================== *)

Module Py.

(** The exception classes that can arise in the script.  All of them derive
    from [Exception]; asynchronous [BaseException]s (KeyboardInterrupt,
    SystemExit) are outside the model. *)
Inductive exn_class : Type :=
  | HTTPError
  | ConnectionError
  | Timeout
  | RequestException
  | JSONDecodeError
  | ParseError
  | KeyError
  | IndexError
  | TypeError
  | ValueError
  | OverflowError
  | AttributeError
  | OtherException (name : string).

(** An exception instance: its class and the text [str(e)] gives. *)
Record exn : Type := mk_exn { exn_cls : exn_class; exn_str : string }.

Definition exn_class_eqb (a b : exn_class) : bool :=
  match a, b with
  | HTTPError, HTTPError | ConnectionError, ConnectionError
  | Timeout, Timeout | RequestException, RequestException
  | JSONDecodeError, JSONDecodeError | ParseError, ParseError
  | KeyError, KeyError | IndexError, IndexError | TypeError, TypeError
  | ValueError, ValueError | OverflowError, OverflowError
  | AttributeError, AttributeError => true
  | OtherException n, OtherException m => String.eqb n m
  | _, _ => false
  end.

(** [issubclass a b] for the classes above: requests' errors derive from
    [RequestException], and a JSON decode error is a [ValueError] too. *)
Definition issubclass (a b : exn_class) : bool :=
  exn_class_eqb a b ||
  match a, b with
  | (HTTPError | ConnectionError | Timeout | JSONDecodeError), RequestException => true
  | JSONDecodeError, ValueError => true
  | _, _ => false
  end.

Definition isinstance (e : exn) (c : exn_class) : bool := issubclass (exn_cls e) c.

(** The result of evaluating an expression: a value, or a raised exception. *)
Inductive outcome (A : Type) : Type :=
  | Ok (a : A)
  | Raise (e : exn).
Arguments Ok {A} a.
Arguments Raise {A} e.

Definition raise {A : Type} (c : exn_class) (msg : string) : outcome A :=
  Raise (mk_exn c msg).

Definition obind {A B : Type} (o : outcome A) (k : A -> outcome B) : outcome B :=
  match o with
  | Ok a => k a
  | Raise e => Raise e
  end.

(** Values as [json] decodes them: [null], booleans, integers, binary64
    floats, text, arrays and objects (insertion-ordered, keys are text). *)
Inductive pyval : Type :=
  | PNone
  | PBool (b : bool)
  | PInt (z : Z)
  | PFloat (f : spec_float)
  | PStr (s : string)
  | PList (l : list pyval)
  | PDict (d : list (string * pyval)).

Definition dict : Type := list (string * pyval).

(** [d.get(k)] as an option, [d.get(k, default)] and [d[k] = v]. *)
Fixpoint dict_find (d : dict) (k : string) : option pyval :=
  match d with
  | [] => None
  | (k', v) :: r => if String.eqb k' k then Some v else dict_find r k
  end.

Definition dict_get (d : dict) (k : string) (default : pyval) : pyval :=
  match dict_find d k with
  | Some v => v
  | None => default
  end.

Fixpoint dict_set (d : dict) (k : string) (v : pyval) : dict :=
  match d with
  | [] => [(k, v)]
  | (k', v') :: r =>
      if String.eqb k' k then (k', v) :: r else (k', v') :: dict_set r k v
  end.

(** *** Numbers *)

(** A number as mantissa and binary exponent, [m * 2^e]; [None] for the
    values that are no number or no finite one. *)
Definition num_repr (v : pyval) : option (Z * Z) :=
  match v with
  | PBool b => Some (if b then 1 else 0, 0)
  | PInt z => Some (z, 0)
  | PFloat (S754_zero _) => Some (0, 0)
  | PFloat (S754_finite s m e) => Some (if s then Z.neg m else Z.pos m, e)
  | _ => None
  end.

Definition num_eqb (a b : Z * Z) : bool :=
  let '(m1, e1) := a in
  let '(m2, e2) := b in
  let e := Z.min e1 e2 in
  (m1 * 2 ^ (e1 - e) =? m2 * 2 ^ (e2 - e)).

(** [a == b] between two scalars.  Numbers of different types compare by
    their exact mathematical value, as CPython does; an infinity equals
    only the infinity of the same sign.  json decodes every [NaN] to one
    shared object, and containers compare their items by identity first, so
    inside a decoded document a NaN equals a NaN. *)
Definition scalar_eqb (a b : pyval) : bool :=
  match a, b with
  | PNone, PNone => true
  | PStr s, PStr t => String.eqb s t
  | PFloat (S754_infinity s), PFloat (S754_infinity t) => Bool.eqb s t
  | PFloat S754_nan, PFloat S754_nan => true
  | _, _ =>
      match num_repr a, num_repr b with
      | Some x, Some y => num_eqb x y
      | _, _ => false
      end
  end.

(** [a == b] as [list.index] and the container comparisons apply it. *)
Fixpoint py_eqb (a b : pyval) {struct a} : bool :=
  match a, b with
  | PList l, PList m =>
      (fix items (l m : list pyval) {struct l} : bool :=
         match l, m with
         | [], [] => true
         | x :: l', y :: m' => py_eqb x y && items l' m'
         | _, _ => false
         end) l m
  | PDict d, PDict d' =>
      Nat.eqb (List.length d) (List.length d') &&
      (fix entries (d : list (string * pyval)) {struct d} : bool :=
         match d with
         | [] => true
         | (k, v) :: r =>
             match dict_find d' k with
             | Some w => py_eqb v w
             | None => false
             end && entries r
         end) d
  | PList _, _ | _, PList _ | PDict _, _ | _, PDict _ => false
  | _, _ => scalar_eqb a b
  end.

(** *** [int(x)] *)

(** [str(z)] of an integer. *)
Definition decimal (z : Z) : string := NilZero.string_of_int (Z.to_int z).

(** The name of the type of a value, as the error texts quote it. *)
Definition type_name (v : pyval) : string :=
  match v with
  | PNone => "NoneType"
  | PBool _ => "bool"
  | PInt _ => "int"
  | PFloat _ => "float"
  | PStr _ => "str"
  | PList _ => "list"
  | PDict _ => "dict"
  end.

(** A text is held as its UTF-8 bytes and read by code point.  A code point
    of [k] bytes is a lead byte and [k-1] continuation bytes; [None] stands
    for bytes that are no UTF-8 (no text of the interpreter has any). *)
Definition is_continuation (c : ascii) : bool :=
  let n := N_of_ascii c in ((128 <=? n) && (n <? 192))%N.

Definition decode (lead : N) (rest : list ascii) (least : N) : option N :=
  if forallb is_continuation rest then
    let cp := fold_left (fun a c => (a * 64 + (N_of_ascii c - 128))%N) rest lead in
    if (least <=? cp)%N then Some cp else None
  else None.

Fixpoint code_points (l : list ascii) : list (option N) :=
  match l with
  | [] => []
  | b0 :: r =>
      let n0 := N_of_ascii b0 in
      if (n0 <? 128)%N then Some n0 :: code_points r
      else if ((192 <=? n0) && (n0 <? 224))%N then
        match r with
        | b1 :: r1 => decode (n0 - 192) [b1] 128 :: code_points r1
        | _ => [None]
        end
      else if ((224 <=? n0) && (n0 <? 240))%N then
        match r with
        | b1 :: b2 :: r2 => decode (n0 - 224) [b1; b2] 2048 :: code_points r2
        | _ => [None]
        end
      else if ((240 <=? n0) && (n0 <? 248))%N then
        match r with
        | b1 :: b2 :: b3 :: r3 =>
            decode (n0 - 240) [b1; b2; b3] 65536 :: code_points r3
        | _ => [None]
        end
      else None :: code_points r
  end.

(** The code points from 127 on that [int] takes for a blank, and the
    zeros of the decimal digits of the other scripts; each zero is followed
    by its digits 1 to 9 (Unicode 14.0, the database of CPython 3.11). *)
Definition unicode_spaces : list N :=
  [ 133; 160; 5760; 8192; 8193; 8194; 8195; 8196; 8197; 8198; 8199; 8200;
    8201; 8202; 8232; 8233; 8239; 8287; 12288 ]%N.

Definition unicode_zeros : list N :=
  [ 1632; 1776; 1984; 2406; 2534; 2662; 2790; 2918; 3046; 3174; 3302; 3430;
    3558; 3664; 3792; 3872; 4160; 4240; 6112; 6160; 6470; 6608; 6784; 6800;
    6992; 7088; 7232; 7248; 42528; 43216; 43264; 43472; 43504; 43600;
    44016; 65296; 66720; 68912; 69734; 69872; 69942; 70096; 70384; 70736;
    70864; 71248; 71360; 71472; 71904; 72016; 72784; 73040; 73120; 92768;
    92864; 93008; 120782; 120792; 120802; 120812; 120822; 123200; 123632;
    125264; 130032 ]%N.

Definition unicode_isspace (n : N) : bool := existsb (N.eqb n) unicode_spaces.

Definition unicode_decimal (n : N) : option N :=
  match List.find (fun z => ((z <=? n) && (n <? z + 10))%N) unicode_zeros with
  | Some z => Some (n - z)%N
  | None => None
  end.

(** What [int] makes of a code point before it reads the text: an ASCII
    character stays, a blank of another script becomes a space, a decimal
    digit of another script the ASCII digit; any other makes the text no
    literal. *)
Definition ascii_of_code_point (cp : option N) : option ascii :=
  match cp with
  | None => None
  | Some n =>
      if (n <? 127)%N then Some (ascii_of_N n)
      else if unicode_isspace n then Some " "%char
      else option_map (fun d => ascii_of_N (48 + d)) (unicode_decimal n)
  end.

Fixpoint transform (cps : list (option N)) : option (list ascii) :=
  match cps with
  | [] => Some []
  | cp :: r =>
      match ascii_of_code_point cp, transform r with
      | Some c, Some l => Some (c :: l)
      | _, _ => None
      end
  end.

(** The blanks [int] skips around a literal: tab, line feed, vertical tab,
    form feed, carriage return and space. *)
Definition is_space (c : ascii) : bool :=
  let n := nat_of_ascii c in
  ((9 <=? n) && (n <=? 13) || (n =? 32))%nat.

Definition digit_of (c : ascii) : option Z :=
  let n := nat_of_ascii c in
  if ((48 <=? n) && (n <=? 57))%nat then Some (Z.of_nat (n - 48)) else None.

Fixpoint lstrip (l : list ascii) : list ascii :=
  match l with
  | c :: r => if is_space c then lstrip r else l
  | [] => []
  end.

Definition strip (l : list ascii) : list ascii := rev (lstrip (rev (lstrip l))).

(** Decimal digits, single underscores allowed between two digits: the
    value and the number of digits. *)
Fixpoint parse_digits (acc count : Z) (l : list ascii) : option (Z * Z) :=
  match l with
  | [] => None
  | c :: r =>
      match digit_of c with
      | None => None
      | Some d =>
          let acc' := 10 * acc + d in
          match r with
          | [] => Some (acc', count + 1)
          | "_"%char :: r' => parse_digits acc' (count + 1) r'
          | _ :: _ => parse_digits acc' (count + 1) r
          end
      end
  end.

(** A literal in base 10: blanks, an optional sign, the digits, blanks. *)
Definition int_literal (s : string) : option (Z * Z) :=
  match transform (code_points (list_ascii_of_string s)) with
  | None => None
  | Some l =>
      match strip l with
      | "-"%char :: r =>
          option_map (fun zc : Z * Z => (- fst zc, snd zc)) (parse_digits 0 0 r)
      | "+"%char :: r => parse_digits 0 0 r
      | l' => parse_digits 0 0 l'
      end
  end.

(** The default of [sys.get_int_max_str_digits()]; the script does not
    change it. *)
Definition max_str_digits : Z := 4300.

Definition parse_int (s : string) : option Z :=
  match int_literal s with
  | Some (z, n) => if n <=? max_str_digits then Some z else None
  | None => None
  end.

(** The text of the [ValueError] for a text [int] does not convert (the
    text is quoted as it is; the escapes of [repr] are not modelled). *)
Definition int_error_text (s : string) : string :=
  match int_literal s with
  | Some (_, n) =>
      "Exceeds the limit (" ++ decimal max_str_digits
      ++ " digits) for integer string conversion: value has " ++ decimal n
      ++ " digits; use sys.set_int_max_str_digits() to increase the limit"
  | None => "invalid literal for int() with base 10: '" ++ s ++ "'"
  end.

(** [int(x)].  Text is read in base 10, with the blanks and digits of all
    scripts and the limit on the number of digits; a float is truncated
    towards zero; NaN is a [ValueError], an infinity an [OverflowError],
    and a value that is neither number nor text a [TypeError].  The texts
    of the exceptions are those of CPython 3.11. *)
Definition py_int (v : pyval) : outcome Z :=
  match v with
  | PBool b => Ok (if b then 1 else 0)
  | PInt z => Ok z
  | PFloat (S754_zero _) => Ok 0
  | PFloat (S754_finite s m e) =>
      let mag := Z.shiftl (Z.pos m) e in
      Ok (if s then - mag else mag)
  | PFloat (S754_infinity _) =>
      raise OverflowError "cannot convert float infinity to integer"
  | PFloat S754_nan => raise ValueError "cannot convert float NaN to integer"
  | PStr s =>
      match parse_int s with
      | Some z => Ok z
      | None => raise ValueError (int_error_text s)
      end
  | PNone | PList _ | PDict _ =>
      raise TypeError
        ("int() argument must be a string, a bytes-like object or a real number, not '"
         ++ type_name v ++ "'")
  end.

(** *** Subscripting, iteration and [index] *)

(** [x[k]] with a text key. *)
Definition getitem_str (x : pyval) (k : string) : outcome pyval :=
  match x with
  | PDict d =>
      match dict_find d k with
      | Some v => Ok v
      | None => raise KeyError ("'" ++ k ++ "'")
      end
  | PList _ => raise TypeError "list indices must be integers or slices, not str"
  | PStr _ => raise TypeError "string indices must be integers, not 'str'"
  | _ => raise TypeError ("'" ++ type_name x ++ "' object is not subscriptable")
  end.

(** The number of bytes of the code point a lead byte starts. *)
Definition utf8_width (c : ascii) : nat :=
  let n := N_of_ascii c in
  if (n <? 192)%N then 1
  else if (n <? 224)%N then 2
  else if (n <? 240)%N then 3
  else if (n <? 248)%N then 4
  else 1.

(** The characters of a text, each as a text of length one. *)
Fixpoint chars (s : string) : list pyval :=
  match s with
  | EmptyString => []
  | String b0 r =>
      match utf8_width b0 with
      | 2%nat =>
          match r with
          | String b1 r1 => PStr (String b0 (String b1 EmptyString)) :: chars r1
          | _ => PStr (String b0 EmptyString) :: chars r
          end
      | 3%nat =>
          match r with
          | String b1 (String b2 r2) =>
              PStr (String b0 (String b1 (String b2 EmptyString))) :: chars r2
          | _ => PStr (String b0 EmptyString) :: chars r
          end
      | 4%nat =>
          match r with
          | String b1 (String b2 (String b3 r3)) =>
              PStr (String b0 (String b1 (String b2 (String b3 EmptyString))))
              :: chars r3
          | _ => PStr (String b0 EmptyString) :: chars r
          end
      | _ => PStr (String b0 EmptyString) :: chars r
      end
  end.

(** [x[i]] with an integer index; a negative index counts from the end. *)
Definition seq_item {A : Type} (l : list A) (i : Z) : option A :=
  let n := Z.of_nat (List.length l) in
  let j := if i <? 0 then i + n else i in
  if (0 <=? j) && (j <? n) then nth_error l (Z.to_nat j) else None.

Definition getitem_int (x : pyval) (i : Z) : outcome pyval :=
  match x with
  | PList l =>
      match seq_item l i with
      | Some v => Ok v
      | None => raise IndexError "list index out of range"
      end
  | PStr s =>
      match seq_item (chars s) i with
      | Some v => Ok v
      | None => raise IndexError "string index out of range"
      end
  | PDict _ => raise KeyError (decimal i)
  | _ => raise TypeError ("'" ++ type_name x ++ "' object is not subscriptable")
  end.

(** The items a [for] loop over [x] visits. *)
Definition py_iter (x : pyval) : outcome (list pyval) :=
  match x with
  | PList l => Ok l
  | PStr s => Ok (chars s)
  | PDict d => Ok (map (fun kv => PStr (fst kv)) d)
  | _ => raise TypeError ("'" ++ type_name x ++ "' object is not iterable")
  end.

(** [l.index(x)] on a list: the position of the first item equal to [x]. *)
Fixpoint list_index (l : list pyval) (x : pyval) : option nat :=
  match l with
  | [] => None
  | y :: r => if py_eqb y x then Some O else option_map S (list_index r x)
  end.

(** [c.index(x)]: lists search for an equal item, text for a substring
    (the position counts characters), and the other types have no such
    method.  The [ValueError] of a list names the value by its [repr],
    which is not modelled: its text here is schematic. *)
Definition py_index (c x : pyval) : outcome Z :=
  match c with
  | PList l =>
      match list_index l x with
      | Some i => Ok (Z.of_nat i)
      | None => raise ValueError "x is not in list"
      end
  | PStr s =>
      match x with
      | PStr t =>
          match String.index 0 t s with
          | Some i => Ok (Z.of_nat (List.length (chars (substring 0 i s))))
          | None => raise ValueError "substring not found"
          end
      | _ => raise TypeError ("must be str, not " ++ type_name x)
      end
  | _ => raise AttributeError ("'" ++ type_name c ++ "' object has no attribute 'index'")
  end.

End Py.

(* ================================================================== *)
(** ** xml.etree.ElementTree                                           *)
(* ================================================================== *)

Module ET.

(** An element: its tag, its [text] attribute ([None] when the element has
    no character data before its first child) and its children in document
    order.  Attributes and tails are not read by the script. *)
Inductive Element : Type :=
  | mkElement (tag : string) (text : option string) (children : list Element).

Definition tag (e : Element) : string := let 'mkElement t _ _ := e in t.
Definition text (e : Element) : option string := let 'mkElement _ x _ := e in x.
Definition children (e : Element) : list Element := let 'mkElement _ _ c := e in c.

(** [e.iter()]: the element itself, then its descendants, in document order. *)
Fixpoint iter (e : Element) : list Element :=
  match e with
  | mkElement _ _ cs => e :: flat_map iter cs
  end.

(** [root.findall(".//" + t)]: every element below [root], at any depth,
    whose tag is [t], in document order; [root] itself is not a candidate. *)
Definition findall_descendants (root : Element) (t : string) : list Element :=
  filter (fun e => String.eqb (tag e) t) (flat_map iter (children root)).

(** [e.find(t)]: the first child of [e] whose tag is [t]. *)
Definition find (e : Element) (t : string) : option Element :=
  List.find (fun c => String.eqb (tag c) t) (children e).

End ET.

(* ================================================================== *)
(** ** requests                                                        *)
(* ================================================================== *)

Module Requests.
Import Py.

Record Request : Type := mkRequest {
  req_url : string;
  req_auth : option (string * string)
}.

Record Response : Type := mkResponse {
  status_code : Z;
  reason : string;
  url : string;
  content : string
}.

(** [response.raise_for_status()]: an [HTTPError] for the 4xx and 5xx
    status codes, nothing for the others. *)
Definition raise_for_status (r : Response) : outcome unit :=
  if (400 <=? status_code r) && (status_code r <? 500) then
    raise HTTPError
      (decimal (status_code r) ++ " Client Error: " ++ reason r ++ " for url: " ++ url r)
  else if (500 <=? status_code r) && (status_code r <? 600) then
    raise HTTPError
      (decimal (status_code r) ++ " Server Error: " ++ reason r ++ " for url: " ++ url r)
  else Ok tt.

(** [response.ok]: whether [raise_for_status] passes. *)
Definition ok (r : Response) : bool :=
  match raise_for_status r with
  | Ok _ => true
  | Raise _ => false
  end.

End Requests.

(* ================================================================== *)
(** ** The world the script runs in                                    *)
(* ================================================================== *)

Import Py ET Requests.

(** An f-string: literal text and values formatted in between. *)
Inductive fragment : Type :=
  | Lit (s : string)
  | Fmt (v : pyval).

Definition ftext : Type := list fragment.

(** The streamlit calls of the script, in the order the page receives them. *)
Inductive st_call : Type :=
  | st_title (t : string)
  | st_header (t : string)
  | st_write (t : ftext)
  | st_markdown (t : ftext) (unsafe_allow_html : bool).

(** What the script is linked with and configured by: the two secrets, and
    the library functions whose results it only passes on.  An instant is
    a number of microseconds since the epoch ([datetime]'s range is not
    modelled). *)
Record Runtime : Type := mkRuntime {
  username : string;
  password : string;
  isoformat : Z -> string;
  response_json : Response -> outcome pyval;
  fromstring : string -> outcome Element
}.

(** The outside: what the [k]-th reading of the clock gives, and how the
    [k]-th request of the run is answered (a response, or an exception
    raised by [requests.get]). *)
Record Upstream : Type := mkUpstream {
  clock : nat -> Z;
  answer : nat -> Request -> outcome Response
}.

(** What a run has done so far. *)
Record World : Type := mkWorld {
  ticks : nat;
  sent : list Request;
  page : list st_call
}.

Definition M (A : Type) : Type := World -> outcome A * World.

Definition ret {A : Type} (a : A) : M A := fun w => (Ok a, w).

Definition bind {A B : Type} (m : M A) (k : A -> M B) : M B :=
  fun w =>
    match m w with
    | (Ok a, w') => k a w'
    | (Raise e, w') => (Raise e, w')
    end.

Definition lift {A : Type} (o : outcome A) : M A := fun w => (o, w).

(** [try: body  except Exception as e: handler e]. *)
Definition try_except {A : Type} (body : M A) (handler : exn -> M A) : M A :=
  fun w =>
    match body w with
    | (Ok a, w') => (Ok a, w')
    | (Raise e, w') => handler e w'
    end.

Declare Scope py_scope.
Delimit Scope py_scope with py.
Notation "x <- c1 ;; c2" := (bind c1 (fun x => c2))
  (at level 61, c1 at next level, right associativity) : py_scope.
Notation "c1 ;; c2" := (bind c1 (fun _ => c2))
  (at level 61, right associativity) : py_scope.
Local Open Scope py_scope.

(** A [for] loop whose body updates the loop's variables [S] or leaves the
    function with a value [R]. *)
Inductive flow (S R : Type) : Type :=
  | Continue (s : S)
  | Return (r : R).
Arguments Continue {S R} s.
Arguments Return {S R} r.

Fixpoint for_each {X S R : Type}
    (items : list X) (body : X -> S -> M (flow S R)) (s : S) : M (flow S R) :=
  match items with
  | [] => ret (Continue s)
  | x :: rest =>
      f <- body x s ;;
      match f with
      | Continue s' => for_each rest body s'
      | Return r => ret (Return r)
      end
  end.

Definition utcnow (up : Upstream) : M Z :=
  fun w => (Ok (clock up (ticks w)), mkWorld (S (ticks w)) (sent w) (page w)).

Definition requests_get (up : Upstream) (u : string) (auth : option (string * string))
  : M Response :=
  fun w =>
    let rq := mkRequest u auth in
    (answer up (List.length (sent w)) rq,
     mkWorld (ticks w) (sent w ++ [rq]) (page w)).

Definition st (c : st_call) : M unit :=
  fun w => (Ok tt, mkWorld (ticks w) (sent w) (page w ++ [c])).

Definition timedelta_days (n : Z) : Z := n * 86400 * 1000000.

(** The double quote and the newline, for the HTML the page embeds. *)
Definition dq : string := String (ascii_of_nat 34) EmptyString.
Definition nl : string := String (ascii_of_nat 10) EmptyString.

(* ================================================================== *)
(** ** streamlit_app.py                                                *)
(* ================================================================== *)

(** Mapping weather symbol ids to descriptions and icons. *)
Definition weather_symbol_map : list (Z * (string * string)) :=
  [ (0, ("A weather symbol could not be determined", "❓"));
    (1, ("Clear sky", "☀️"));
    (101, ("Clear sky (night)", "🌕"));
    (2, ("Light clouds", "🌤"));
    (102, ("Light clouds (night)", "🌥"));
    (3, ("Partly cloudy", "⛅"));
    (103, ("Partly cloudy (night)", "☁️"));
    (4, ("Cloudy", "☁️"));
    (104, ("Cloudy (night)", "☁️"));
    (5, ("Rain", "🌧"));
    (105, ("Rain (night)", "🌧"));
    (6, ("Rain and snow / sleet", "🌨"));
    (106, ("Rain and snow / sleet (night)", "🌨"));
    (7, ("Snow", "❄️"));
    (107, ("Snow (night)", "❄️"));
    (8, ("Rain shower", "🌦"));
    (108, ("Rain shower (night)", "🌦"));
    (9, ("Snow shower", "🌨"));
    (109, ("Snow shower (night)", "🌨"));
    (10, ("Sleet shower", "🌨"));
    (110, ("Sleet shower (night)", "🌨"));
    (11, ("Light fog", "🌫️"));
    (111, ("Light fog (night)", "🌫️"));
    (12, ("Dense fog", "🌫️"));
    (112, ("Dense fog (night)", "🌫️"));
    (13, ("Freezing rain", "🌧❄️"));
    (113, ("Freezing rain (night)", "🌧❄️"));
    (14, ("Thunderstorms", "⛈"));
    (114, ("Thunderstorms (night)", "⛈"));
    (15, ("Drizzle", "🌧"));
    (115, ("Drizzle (night)", "🌧"));
    (16, ("Sandstorm", "🌪️"));
    (116, ("Sandstorm (night)", "🌪️")) ].

(** McDonough, GA coordinates. *)
Definition LATITUDE : string := "33.4473".
Definition LONGITUDE : string := "-84.1469".

(** RSS feed URLs. *)
Definition RSS_FEED_NHC : string := "https://www.nhc.noaa.gov/nhc_at1.xml".
Definition RSS_FEED_SPC : string := "https://www.spc.noaa.gov/products/spcwwrss.xml".

(** [weather_symbol_map.get(symbol_id)]. *)
Fixpoint symbol_find (m : list (Z * (string * string))) (symbol_id : Z)
  : option (string * string) :=
  match m with
  | [] => None
  | (k, p) :: r => if k =? symbol_id then Some p else symbol_find r symbol_id
  end.

(** The weather symbol description and icon. *)
Definition get_weather_symbol_description (symbol_id : Z) : string * string :=
  match symbol_find weather_symbol_map symbol_id with
  | Some p => p
  | None => ("Unknown symbol", "❓")
  end.

(** [e.text] as a Python value: text, or [None]. *)
Definition text_of (e : Element) : pyval :=
  match ET.text e with
  | Some s => PStr s
  | None => PNone
  end.

(** The loop of [fetch_first_description_from_rss] over the items found. *)
Fixpoint first_description (items : list Element) : pyval :=
  match items with
  | [] => PStr "No description available."
  | item :: rest =>
      match ET.find item "description" with
      | Some description => text_of description
      | None => first_description rest
      end
  end.

(** [data['data'][0]['coordinates'][0]['dates']]. *)
Definition dates_of (data : pyval) : outcome pyval :=
  obind (getitem_str data "data") (fun a =>
  obind (getitem_int a 0) (fun b =>
  obind (getitem_str b "coordinates") (fun c =>
  obind (getitem_int c 0) (fun d =>
  getitem_str d "dates")))).

(** [data['data'][0]['coordinates'][0]['dates'][0]['value']]. *)
Definition first_value_of (data : pyval) : outcome pyval :=
  obind (dates_of data) (fun dates =>
  obind (getitem_int dates 0) (fun sample =>
  getitem_str sample "value")).

Section Script.

Variable rt : Runtime.
Variable up : Upstream.

(** Fetch the first description from an RSS feed. *)
Definition fetch_first_description_from_rss (feed_url : string) : M pyval :=
  try_except
    (response <- requests_get up feed_url None ;;
     root <- lift (fromstring rt (content response)) ;;
     ret (first_description (findall_descendants root "item")))
    (fun e => ret (PStr ("Error fetching data: " ++ exn_str e))).

Definition current_params (latitude longitude : string) : list (string * string) :=
  [ ("temperature", "t_2m:F/" ++ latitude ++ "," ++ longitude);
    ("weather_symbol", "weather_symbol_1h:idx/" ++ latitude ++ "," ++ longitude);
    ("heavy_rain_warning", "precip_1h:mm/" ++ latitude ++ "," ++ longitude);
    ("air_quality", "pm2p5:ugm3/" ++ latitude ++ "," ++ longitude) ].

Definition current_url (now : Z) (endpoint : string) : string :=
  "https://api.meteomatics.com/" ++ isoformat rt now ++ "Z/" ++ endpoint ++ "/json".

(** One turn of the loop of [fetch_weather_data]. *)
Definition fetch_weather_param (pe : string * string) (weather_data : dict)
  : M (flow dict Empty_set) :=
  let '(param, endpoint) := pe in
  try_except
    (now <- utcnow up ;;
     let u := current_url now endpoint in
     response <- requests_get up u (Some (username rt, password rt)) ;;
     lift (raise_for_status response) ;;
     data <- lift (response_json rt response) ;;
     v <- lift (first_value_of data) ;;
     ret (Continue (dict_set weather_data param v)))
    (fun e =>
       if isinstance e HTTPError then
         ret (Continue (dict_set weather_data param
                          (PStr ("Error fetching " ++ param ++ ": " ++ exn_str e))))
       else
         ret (Continue (dict_set weather_data param
                          (PStr ("Error fetching " ++ param ++ ": " ++ exn_str e))))).

(** Fetch weather data from the Meteomatics API. *)
Definition fetch_weather_data (latitude longitude : string) : M dict :=
  f <- for_each (current_params latitude longitude) fetch_weather_param [] ;;
  match f with
  | Continue weather_data => ret weather_data
  | Return r => match r with end
  end.

Definition forecast_params (latitude longitude : string) : list (string * string) :=
  [ ("temperature", "t_2m:F/" ++ latitude ++ "," ++ longitude);
    ("weather_symbol", "weather_symbol_1h:idx/" ++ latitude ++ "," ++ longitude) ].

Definition forecast_url (start_date end_date : Z) (interval endpoint : string) : string :=
  "https://api.meteomatics.com/" ++ isoformat rt start_date ++ "Z--"
  ++ isoformat rt end_date ++ "Z:" ++ interval ++ "/" ++ endpoint ++ "/json".

(** One turn of the loop of [fetch_5_day_forecast]. *)
Definition fetch_forecast_param (start_date end_date : Z) (interval : string)
    (pe : string * string) (forecast_data : list pyval)
  : M (flow (list pyval) pyval) :=
  let '(param, endpoint) := pe in
  try_except
    (let u := forecast_url start_date end_date interval endpoint in
     response <- requests_get up u (Some (username rt, password rt)) ;;
     lift (raise_for_status response) ;;
     data <- lift (response_json rt response) ;;
     dates <- lift (dates_of data) ;;
     ret (Continue (forecast_data ++ [dates])%list))
    (fun e =>
       if isinstance e HTTPError then
         ret (Return (PStr ("Error fetching " ++ param ++ ": " ++ exn_str e)))
       else
         ret (Return (PStr ("Error fetching " ++ param ++ ": " ++ exn_str e)))).

(** Fetch the 5-day weather forecast from the Meteomatics API. *)
Definition fetch_5_day_forecast (latitude longitude : string) : M pyval :=
  start_date <- utcnow up ;;
  let end_date := start_date + timedelta_days 5 in
  let interval := "PT24H" in
  f <- for_each (forecast_params latitude longitude)
         (fetch_forecast_param start_date end_date interval) [] ;;
  match f with
  | Continue forecast_data => ret (PList forecast_data)
  | Return r => ret r
  end.

(** The body of the loop of [display_5_day_forecast] for one [day]. *)
Definition display_day (forecast_data day : pyval) (_ : unit) : M (flow unit unit) :=
  date <- lift (getitem_str day "date") ;;
  temperature <- lift (getitem_str day "value") ;;
  symbols <- lift (getitem_int forecast_data 1) ;;
  temperatures <- lift (getitem_int forecast_data 0) ;;
  i <- lift (py_index temperatures day) ;;
  sample <- lift (getitem_int symbols i) ;;
  v <- lift (getitem_str sample "value") ;;
  symbol_id <- lift (py_int v) ;;
  let '(symbol_description, symbol_icon) := get_weather_symbol_description symbol_id in
  st (st_write [Lit "**Date**: "; Fmt date]) ;;
  st (st_write [Lit "**Temperature**: "; Fmt temperature; Lit " °F"]) ;;
  st (st_write [Lit "**Weather**: "; Fmt (PStr symbol_icon); Lit " ";
                Fmt (PStr symbol_description)]) ;;
  st (st_write [Lit "---"]) ;;
  ret (Continue tt).

(** The loop of [display_5_day_forecast] over the fetched data. *)
Definition display_days (forecast_data : pyval) : M unit :=
  temperatures <- lift (getitem_int forecast_data 0) ;;
  days <- lift (py_iter temperatures) ;;
  for_each days (display_day forecast_data) tt ;;
  ret tt.

(** Display the 5-day weather outlook. *)
Definition display_5_day_forecast : M unit :=
  st (st_header "5-Day Weather Outlook for McDonough, GA") ;;
  forecast_data <- fetch_5_day_forecast LATITUDE LONGITUDE ;;
  display_days forecast_data.

(** The conversion of the current weather symbol in [main]. *)
Definition current_symbol_id (weather_data : dict) : M Z :=
  try_except
    (lift (py_int (dict_get weather_data "weather_symbol" (PInt 0))))
    (fun e =>
       if isinstance e TypeError || isinstance e ValueError then ret 0
       else lift (Raise e)).

(** The coloured banner [main] writes around a feed description. *)
Definition banner (colour margin : string) (body : ftext) : ftext :=
  ([Lit (nl ++ "        <div style=" ++ dq ++ "background-color: " ++ colour
         ++ "; padding: 10px; margin-bottom: " ++ margin ++ ";" ++ dq ++ ">" ++ nl
         ++ "            <p style=" ++ dq
         ++ "color: white; text-align: center; text-transform: uppercase;"
         ++ dq ++ ">")]
   ++ body
   ++ [Lit ("</p>" ++ nl ++ "        </div>" ++ nl ++ "        ")])%list.

(** Main function. *)
Definition main : M unit :=
  st (st_title "Tropics & Severe Weather Dashboard") ;;
  st (st_title "NHC Latest") ;;
  description_nhc <- fetch_first_description_from_rss RSS_FEED_NHC ;;
  let description_with_emoji := [Lit "🌀 "; Fmt description_nhc] in
  st (st_markdown (banner "#FF0000" "6px" description_with_emoji) true) ;;
  st (st_title "SPC Alerts") ;;
  description_spc <- fetch_first_description_from_rss RSS_FEED_SPC ;;
  let description_spc_with_emoji := [Lit "⛈️ "; Fmt description_spc] in
  st (st_markdown (banner "#007BFF" "10px" description_spc_with_emoji) true) ;;
  weather_data <- fetch_weather_data LATITUDE LONGITUDE ;;
  st (st_header "Current Weather in McDonough, GA:") ;;
  st (st_write [Lit "**Temperature**: "; Fmt (dict_get weather_data "temperature" PNone);
                Lit " °F"]) ;;
  weather_symbol_id <- current_symbol_id weather_data ;;
  let '(symbol_description, symbol_icon) :=
    get_weather_symbol_description weather_symbol_id in
  st (st_write [Lit "**Weather Symbol**: "; Fmt (PStr symbol_icon); Lit " ";
                Fmt (PStr symbol_description)]) ;;
  st (st_write [Lit "**Heavy Rain Warning**: ";
                Fmt (dict_get weather_data "heavy_rain_warning" PNone); Lit " mm"]) ;;
  st (st_write [Lit "**Air Quality (PM2.5)**: ";
                Fmt (dict_get weather_data "air_quality" PNone); Lit " µg/m³"]) ;;
  display_5_day_forecast.

End Script.

(* ================================================================== *)
(** ** Notions the statements are written in                           *)
(* ================================================================== *)

Section Retrieval.

Variable rt : Runtime.
Variable up : Upstream.

(** What the [try] block of a Meteomatics loop makes of the answer [o] to
    its request: the status check, the decoding and the extraction. *)
Definition retrieve (extract : pyval -> outcome pyval) (o : outcome Response)
  : outcome pyval :=
  obind o (fun response =>
  obind (raise_for_status response) (fun _ =>
  obind (response_json rt response) extract)).

(** Retrieving or parsing a parameter fails: the request raises, the status
    is not a success, the body is no JSON, or the document has not the
    nested shape. *)
Inductive retrieval_failed (extract : pyval -> outcome pyval)
  : outcome Response -> Prop :=
  | request_raised (e : exn) : retrieval_failed extract (Raise e)
  | status_not_ok (r : Response) :
      ok r = false -> retrieval_failed extract (Ok r)
  | body_not_json (r : Response) (e : exn) :
      response_json rt r = Raise e -> retrieval_failed extract (Ok r)
  | shape_unexpected (r : Response) (data : pyval) (e : exn) :
      response_json rt r = Ok data -> extract data = Raise e ->
      retrieval_failed extract (Ok r).

(** Retrieving a parameter succeeds with [v]. *)
Definition retrieved (extract : pyval -> outcome pyval) (o : outcome Response)
    (v : pyval) : Prop :=
  exists r data,
    o = Ok r /\ ok r = true /\ response_json rt r = Ok data /\ extract data = Ok v.

(** The answer to the request of the [k]-th parameter of [fetch_weather_data],
    of [fetch_5_day_forecast] and to the one of the feed reader, for a call
    that starts in [w]. *)
Definition current_answer (w : World) (k : nat) (endpoint : string) : outcome Response :=
  answer up (List.length (sent w) + k)
    (mkRequest (current_url rt (clock up (ticks w + k)) endpoint)
       (Some (username rt, password rt))).

Definition forecast_answer (w : World) (k : nat) (endpoint : string) : outcome Response :=
  answer up (List.length (sent w) + k)
    (mkRequest
       (forecast_url rt (clock up (ticks w)) (clock up (ticks w) + timedelta_days 5)
          "PT24H" endpoint)
       (Some (username rt, password rt))).

Definition feed_answer (w : World) (feed_url : string) : outcome Response :=
  answer up (List.length (sent w)) (mkRequest feed_url None).

End Retrieval.

(** An error-description text for [param]. *)
Definition error_text (param : string) (v : pyval) : Prop :=
  exists details, v = PStr ("Error fetching " ++ param ++ ": " ++ details).

(** Two answers carry the same HTTP response: the same exception, or the
    same status, reason and body.  The [url] of a response is not part of
    what the upstream sends: requests fills it with the URL it asked for. *)
Definition same_http_response (o1 o2 : outcome Response) : Prop :=
  match o1, o2 with
  | Ok r1, Ok r2 =>
      status_code r1 = status_code r2 /\ reason r1 = reason r2 /\
      content r1 = content r2
  | Raise e1, Raise e2 => e1 = e2
  | _, _ => False
  end.

(** The same HTTP response, answered with a success status or reported
    under the same URL. *)
Definition same_answer (o1 o2 : outcome Response) : Prop :=
  same_http_response o1 o2 /\
  match o1, o2 with
  | Ok r1, Ok r2 => ok r1 = true \/ url r1 = url r2
  | _, _ => True
  end.

(** The decoding of a body reads nothing of the response but its body. *)
Definition reads_body_only (rt : Runtime) : Prop :=
  forall r r', content r = content r' -> response_json rt r = response_json rt r'.

(** What a turn of a Meteomatics loop keeps for [param]: the value, or the
    error text made of the exception. *)
Definition entry_of (param : string) (o : outcome pyval) : pyval :=
  match o with
  | Ok v => v
  | Raise e => PStr ("Error fetching " ++ param ++ ": " ++ exn_str e)
  end.

(** An item without a [description] child, and the first [description]
    child of an item. *)
Definition no_description (item : Element) : Prop :=
  Forall (fun c => tag c <> "description") (children item).

Definition first_description_child (item description : Element) : Prop :=
  exists c1 c2,
    children item = (c1 ++ description :: c2)%list /\
    Forall (fun c => tag c <> "description") c1 /\
    tag description = "description".

(** [description] is the first [description] child met when the [items]
    are gone through in their order. *)
Definition first_description_in (items : list Element) (description : Element) : Prop :=
  exists before item after,
    items = (before ++ item :: after)%list /\
    Forall no_description before /\
    first_description_child item description.

(** One day of the outlook: what the four lines written for it show. *)
Record ForecastDay : Type := mkForecastDay {
  fd_date : pyval;
  fd_temperature : pyval;
  fd_description : string;
  fd_icon : string
}.

Definition render_day (d : ForecastDay) : list st_call :=
  [ st_write [Lit "**Date**: "; Fmt (fd_date d)];
    st_write [Lit "**Temperature**: "; Fmt (fd_temperature d); Lit " °F"];
    st_write [Lit "**Weather**: "; Fmt (PStr (fd_icon d)); Lit " ";
              Fmt (PStr (fd_description d))];
    st_write [Lit "---"] ].

(** The day made of the temperature sample [t] and the symbol sample [s]. *)
Definition joined (t s : pyval) (d : ForecastDay) : Prop :=
  exists v code,
    getitem_str t "date" = Ok (fd_date d) /\
    getitem_str t "value" = Ok (fd_temperature d) /\
    getitem_str s "value" = Ok v /\
    py_int v = Ok code /\
    get_weather_symbol_description code = (fd_description d, fd_icon d).

(** The days made of two series, position by position. *)
Inductive joined_series : list pyval -> list pyval -> list ForecastDay -> Prop :=
  | joined_nil : joined_series [] [] []
  | joined_cons (t s : pyval) (d : ForecastDay)
      (ts ss : list pyval) (ds : list ForecastDay) :
      joined t s d -> joined_series ts ss ds ->
      joined_series (t :: ts) (s :: ss) (d :: ds).

(** No two samples of a series are equal (as [==] has it). *)
Definition distinct_samples (series : list pyval) : Prop :=
  forall i j x y,
    nth_error series i = Some x -> nth_error series j = Some y ->
    (py_eqb x y = true <-> i = j).

(** Appending to the page. *)
Definition written (w : World) (calls : list st_call) : World :=
  mkWorld (ticks w) (sent w) (page w ++ calls).

(* ================================================================== *)
(** ** Sample documents, runtimes and upstreams                        *)
(* ================================================================== *)

(** The JSON envelope of the measurement API around a [dates] value. *)
Definition envelope (dates : pyval) : pyval :=
  PDict [("data", PList [PDict [("coordinates", PList [PDict [("dates", dates)]])]])].

Definition sample (date : string) (value : pyval) : pyval :=
  PDict [("date", PStr date); ("value", value)].

(** 72.5 as a binary64 float: 145 * 2^-1. *)
Definition f72_5 : pyval := PFloat (S754_finite false 145 (-1)).

Definition d1 : string := "2024-06-01T00:00:00Z".
Definition d2 : string := "2024-06-02T00:00:00Z".

Definition temperatures_12 : list pyval := [sample d1 (PInt 70); sample d2 (PInt 75)].
Definition symbols_12 : list pyval := [sample d1 (PStr "1"); sample d2 (PStr "5")].

(** A temperature series in which the same sample occurs twice. *)
Definition temperatures_twice : list pyval := [sample d1 (PInt 70); sample d1 (PInt 70)].
Definition symbols_twice : list pyval := [sample d1 (PStr "1"); sample d1 (PStr "5")].

(** A symbol series whose value is JSON [null]. *)
Definition symbols_null : list pyval := [sample d1 PNone].

(** A decoder that knows the bodies of the samples by name. *)
Definition sample_bodies : dict :=
  [ ("current-72.5", envelope (PList [sample d1 f72_5]));
    ("current-symbol-5", envelope (PList [sample d1 (PInt 5)]));
    ("temperatures", envelope (PList temperatures_12));
    ("symbols", envelope (PList symbols_12));
    ("temperatures-one", envelope (PList [sample d1 (PInt 70)]));
    ("temperatures-twice", envelope (PList temperatures_twice));
    ("symbols-twice", envelope (PList symbols_twice));
    ("symbols-null", envelope (PList symbols_null));
    ("no-dates", PDict [("data", PList [])]) ].

Definition sample_json (r : Response) : outcome pyval :=
  match dict_find sample_bodies (content r) with
  | Some v => Ok v
  | None => raise JSONDecodeError "Expecting value: line 1 column 1 (char 0)"
  end.

(** A feed with two items, of which only the second has a description. *)
Definition storm_feed : Element :=
  mkElement "rss" None
    [ mkElement "channel" None
        [ mkElement "title" (Some "NHC Atlantic") [];
          mkElement "item" None [ mkElement "title" (Some "Outlook") [] ];
          mkElement "item" None
            [ mkElement "title" (Some "Advisory") [];
              mkElement "description" (Some "Tropical storm forming") [] ] ] ].

(** A feed whose first described item has an empty description element. *)
Definition hollow_feed : Element :=
  mkElement "rss" None
    [ mkElement "channel" None
        [ mkElement "item" None
            [ mkElement "title" (Some "Advisory") [];
              mkElement "description" None [] ];
          mkElement "item" None
            [ mkElement "description" (Some "Tropical storm forming") [] ] ] ].

(** A feed without any item. *)
Definition bare_feed : Element :=
  mkElement "rss" None
    [ mkElement "channel" None [ mkElement "title" (Some "SPC Watches") [] ] ].

Definition sample_xml (body : string) : outcome Element :=
  if String.eqb body "storm" then Ok storm_feed
  else if String.eqb body "hollow" then Ok hollow_feed
  else if String.eqb body "bare" then Ok bare_feed
  else raise ParseError "syntax error: line 1, column 0".

Definition sample_rt : Runtime :=
  mkRuntime "user" "secret" decimal sample_json sample_xml.

Definition respond (status : Z) (why body : string) (rq : Request) : outcome Response :=
  Ok (mkResponse status why (req_url rq) body).

(** An upstream that answers the first request with 72.5, the second with a
    status 500, does not answer the third, and sends no JSON to the fourth. *)
Definition mixed_upstream : Upstream :=
  mkUpstream (fun k => 1717200000000000 + Z.of_nat k)
    (fun k rq =>
       match k with
       | 0%nat => respond 200 "OK" "current-72.5" rq
       | 1%nat => respond 500 "Internal Server Error" "" rq
       | 2%nat => raise ConnectionError "Connection aborted."
       | _ => respond 200 "OK" "<html>" rq
       end).

(** An upstream whose temperature series fails while the symbol series
    would be delivered. *)
Definition failing_temperature_upstream : Upstream :=
  mkUpstream (fun k => 1717200000000000 + Z.of_nat k)
    (fun k rq =>
       match k with
       | 0%nat => respond 503 "Service Unavailable" "" rq
       | _ => respond 200 "OK" "symbols" rq
       end).

(** An upstream that delivers both series of the forecast. *)
Definition forecast_upstream (temperatures_body symbols_body : string) : Upstream :=
  mkUpstream (fun k => 1717200000000000 + Z.of_nat k)
    (fun k rq =>
       match k with
       | 0%nat => respond 200 "OK" temperatures_body rq
       | _ => respond 200 "OK" symbols_body rq
       end).

Definition feed_upstream (status : Z) (body : string) : Upstream :=
  mkUpstream (fun k => 1717200000000000 + Z.of_nat k)
    (fun _ rq => respond status "" body rq).

Definition down_upstream : Upstream :=
  mkUpstream (fun k => 1717200000000000 + Z.of_nat k)
    (fun _ _ => raise ConnectionError "Max retries exceeded").

(** A whole session: both feeds, the four current parameters, and a
    forecast whose only symbol sample has the value [null]. *)
Definition session_upstream : Upstream :=
  mkUpstream (fun k => 1717200000000000 + Z.of_nat k)
    (fun k rq =>
       match k with
       | 0%nat => respond 200 "OK" "storm" rq
       | 1%nat => respond 200 "OK" "bare" rq
       | 2%nat => respond 200 "OK" "current-72.5" rq
       | 3%nat => respond 200 "OK" "current-symbol-5" rq
       | 4%nat | 5%nat => respond 200 "OK" "current-72.5" rq
       | 6%nat => respond 200 "OK" "temperatures-one" rq
       | _ => respond 200 "OK" "symbols-null" rq
       end).

(** An upstream that answers every request with a status 500, and the
    worlds before a first call and at some later time. *)
Definition outage_upstream : Upstream :=
  mkUpstream (fun k => 1717200000000000 + Z.of_nat k)
    (fun _ rq => respond 500 "Internal Server Error" "" rq).

Definition w0 : World := mkWorld 0 [] [].
Definition w_later : World :=
  mkWorld 9 [mkRequest RSS_FEED_SPC None] [st_title "NHC Latest"].

(* ================================================================== *)
(** ** Further notions and samples                                     *)
(* ================================================================== *)

(** The codes of the table: 0 to 16 by day, 101 to 116 by night. *)
Definition registered (code : Z) : Prop :=
  0 <= code <= 16 \/ 101 <= code <= 116.

(** The world after the requests [rqs] were sent. *)
Definition requested (w : World) (rqs : list Request) : World :=
  mkWorld (ticks w) (sent w ++ rqs) (page w).

(** The day the loop of [display_5_day_forecast] shows for the temperature
    sample [t]: the symbol sample is the one at the position [index] gives
    for [t] in the temperature series. *)
Definition shown_day (temperatures symbols : list pyval) (t : pyval)
    (d : ForecastDay) : Prop :=
  exists j s,
    list_index temperatures t = Some j /\
    nth_error symbols j = Some s /\
    joined t s d.

(** What the feed reader makes of the answer [o] to its request. *)
Definition feed_text (rt : Runtime) (o : outcome Response) : pyval :=
  match obind o (fun response => fromstring rt (content response)) with
  | Ok root => first_description (findall_descendants root "item")
  | Raise e => PStr ("Error fetching data: " ++ exn_str e)
  end.

(** The requests [main] sends before the forecast: the two feeds, then the
    four parameters of the current weather; and the world of a run of
    [main] started in [w], as far as the clock and the requests go, when it
    reaches the forecast. *)
Definition main_requests (rt : Runtime) (up : Upstream) (w : World) : list Request :=
  ([mkRequest RSS_FEED_NHC None; mkRequest RSS_FEED_SPC None] ++
   map (fun kpe : nat * (string * string) =>
          mkRequest (current_url rt (clock up (ticks w + fst kpe)) (snd (snd kpe)))
            (Some (username rt, password rt)))
     (combine (seq 0 4) (current_params LATITUDE LONGITUDE)))%list.

Definition before_forecast (rt : Runtime) (up : Upstream) (w : World) : World :=
  mkWorld (ticks w + 4) (sent w ++ main_requests rt up w) (page w).

(** A symbol series that is one sample short, and one with a sample more. *)
Definition symbols_short : list pyval := [sample d1 (PStr "1")].
Definition symbols_long : list pyval :=
  [sample d1 (PStr "1"); sample d2 (PStr "5"); sample "2024-06-03T00:00:00Z" (PInt 7)].

(* ================================================================== *)
(** ** Symbol resolver                                                 *)
(* ================================================================== *)

Lemma symbol_find_In :
  forall m code p,
    NoDup (map fst m) -> In (code, p) m -> symbol_find m code = Some p.
Proof.
  induction m as [|[k q] m IH]; intros code p Hnd Hin; simpl in *.
  - contradiction.
  - inversion Hnd as [|? ? Hk Hm]; subst.
    destruct Hin as [Heq|Hin].
    + inversion Heq; subst. now rewrite Z.eqb_refl.
    + destruct (Z.eqb_spec k code) as [->|_].
      * exfalso. apply Hk. apply in_map_iff. now exists (code, p).
      * now apply IH.
Qed.

Lemma symbol_find_None :
  forall m code, ~ In code (map fst m) -> symbol_find m code = None.
Proof.
  induction m as [|[k q] m IH]; intros code Hn; simpl in *.
  - reflexivity.
  - destruct (Z.eqb_spec k code) as [->|_].
    + exfalso. apply Hn. now left.
    + apply IH. intro H. apply Hn. now right.
Qed.

Lemma weather_symbol_keys_NoDup : NoDup (map fst weather_symbol_map).
Proof.
  change (map fst weather_symbol_map)
    with (nodup Z.eq_dec (map fst weather_symbol_map)).
  apply NoDup_nodup.
Qed.

(** C4.  The symbol resolver is a function from all integers to pairs of
    texts: for every code registered in the table it returns exactly the
    registered (description, icon) pair, and for every other integer the
    fallback pair ("Unknown symbol", "❓"); in particular code 0 resolves to
    "A weather symbol could not be determined" and code 105 to
    "Rain (night)". *)
Theorem symbol_resolver_total :
  (forall code : Z,
      (forall p, In (code, p) weather_symbol_map ->
                 get_weather_symbol_description code = p) /\
      (~ In code (map fst weather_symbol_map) ->
       get_weather_symbol_description code = ("Unknown symbol", "❓"))) /\
  get_weather_symbol_description 0
    = ("A weather symbol could not be determined", "❓") /\
  get_weather_symbol_description 105 = ("Rain (night)", "🌧").
Proof.
  split; [|split; reflexivity].
  intro code. unfold get_weather_symbol_description. split.
  - intros p Hin.
    now rewrite (symbol_find_In _ _ _ weather_symbol_keys_NoDup Hin).
  - intro Hn. now rewrite (symbol_find_None _ _ Hn).
Qed.

Lemma symbol_resolver_total_witness :
  get_weather_symbol_description 14 = ("Thunderstorms", "⛈") /\
  get_weather_symbol_description 17 = ("Unknown symbol", "❓") /\
  get_weather_symbol_description (-1) = ("Unknown symbol", "❓").
Proof.
  destruct symbol_resolver_total as [H _].
  split; [|split].
  - apply (proj1 (H 14)). unfold weather_symbol_map.
    do 27 right. left. reflexivity.
  - apply (proj2 (H 17)). simpl. intro F.
    repeat (destruct F as [F|F]; [discriminate F|]). exact F.
  - apply (proj2 (H (-1))). simpl. intro F.
    repeat (destruct F as [F|F]; [discriminate F|]). exact F.
Defined.

(* ================================================================== *)
(** ** Feed reader                                                     *)
(* ================================================================== *)

Lemma find_no_description :
  forall item, no_description item -> ET.find item "description" = None.
Proof.
  intros item. unfold no_description, ET.find.
  induction (children item) as [|c cs IH]; intro H; simpl.
  - reflexivity.
  - inversion H as [|? ? Hc Hcs]; subst.
    destruct (String.eqb_spec (tag c) "description") as [E|_].
    + contradiction.
    + now apply IH.
Qed.

Lemma find_first_description_child :
  forall item description,
    first_description_child item description ->
    ET.find item "description" = Some description.
Proof.
  intros item description (c1 & c2 & Hc & Hb & Ht). unfold ET.find.
  rewrite Hc. clear Hc.
  induction c1 as [|c cs IH]; simpl.
  - rewrite Ht. reflexivity.
  - inversion Hb as [|? ? Hc Hcs]; subst.
    destruct (String.eqb_spec (tag c) "description") as [E|_].
    + contradiction.
    + now apply IH.
Qed.

Lemma first_description_found :
  forall items description,
    first_description_in items description ->
    first_description items = text_of description.
Proof.
  intros items description (before & item & after & -> & Hb & Hd).
  induction before as [|b bs IH]; simpl.
  - now rewrite (find_first_description_child _ _ Hd).
  - inversion Hb as [|? ? Hn Hbs]; subst.
    rewrite (find_no_description _ Hn). now apply IH.
Qed.

Lemma first_description_absent :
  forall items,
    Forall no_description items ->
    first_description items = PStr "No description available.".
Proof.
  induction items as [|i rest IH]; intro H; simpl.
  - reflexivity.
  - inversion H as [|? ? Hn Hrest]; subst.
    rewrite (find_no_description _ Hn). now apply IH.
Qed.

(** The run of the feed reader on a body that parses. *)
Lemma fetch_feed_parsed :
  forall rt up feed_url w response root,
    feed_answer up w feed_url = Ok response ->
    fromstring rt (content response) = Ok root ->
    fetch_first_description_from_rss rt up feed_url w
    = (Ok (first_description (findall_descendants root "item")),
       mkWorld (ticks w) (sent w ++ [mkRequest feed_url None]) (page w)).
Proof.
  intros rt up feed_url w response root Ha Hp.
  unfold fetch_first_description_from_rss, try_except, bind, requests_get, lift, ret.
  unfold feed_answer in Ha. rewrite Ha. simpl. rewrite Hp. reflexivity.
Qed.

(** The run of the feed reader when the request or the parser raises. *)
Lemma fetch_feed_raised :
  forall rt up feed_url w e,
    obind (feed_answer up w feed_url)
      (fun response => fromstring rt (content response)) = Raise e ->
    fetch_first_description_from_rss rt up feed_url w
    = (Ok (PStr ("Error fetching data: " ++ exn_str e)),
       mkWorld (ticks w) (sent w ++ [mkRequest feed_url None]) (page w)).
Proof.
  intros rt up feed_url w e H.
  unfold fetch_first_description_from_rss, try_except, bind, requests_get, lift, ret.
  unfold feed_answer in H.
  destruct (answer up (List.length (sent w)) (mkRequest feed_url None))
    as [response|e']; simpl in *.
  - rewrite H. reflexivity.
  - inversion H; subst. reflexivity.
Qed.

Lemma prefix_append :
  forall p s, String.prefix p (p ++ s) = true.
Proof.
  induction p as [|c p IH]; intro s; simpl.
  - now destruct s.
  - destruct (Ascii.ascii_dec c c) as [_|N]; [apply IH | now destruct N].
Qed.

(** C5.  For every feed document that parses, the feed reader returns the
    text content of the first [description] child found when the [item]
    elements are visited in document order, and the literal text
    "No description available." (a normal result, not an error) when no
    item has a description. *)
Theorem feed_reader_first_description :
  forall rt up feed_url w response root,
    feed_answer up w feed_url = Ok response ->
    fromstring rt (content response) = Ok root ->
    (forall description,
        first_description_in (findall_descendants root "item") description ->
        fst (fetch_first_description_from_rss rt up feed_url w)
        = Ok (text_of description)) /\
    (Forall no_description (findall_descendants root "item") ->
     fst (fetch_first_description_from_rss rt up feed_url w)
     = Ok (PStr "No description available.")).
Proof.
  intros rt up feed_url w response root Ha Hp.
  rewrite (fetch_feed_parsed _ _ _ _ _ _ Ha Hp). simpl. split.
  - intros description Hd. now rewrite (first_description_found _ _ Hd).
  - intro Hn. now rewrite (first_description_absent _ Hn).
Qed.

Lemma feed_reader_first_description_witness :
  fst (fetch_first_description_from_rss sample_rt (feed_upstream 200 "storm")
         RSS_FEED_NHC w0)
  = Ok (PStr "Tropical storm forming") /\
  fst (fetch_first_description_from_rss sample_rt (feed_upstream 200 "bare")
         RSS_FEED_SPC w0)
  = Ok (PStr "No description available.").
Proof.
  split.
  - apply (proj1 (feed_reader_first_description sample_rt (feed_upstream 200 "storm")
                    RSS_FEED_NHC w0 _ storm_feed eq_refl eq_refl)
             (mkElement "description" (Some "Tropical storm forming") [])).
    exists [mkElement "item" None [mkElement "title" (Some "Outlook") []]],
           (mkElement "item" None
              [mkElement "title" (Some "Advisory") [];
               mkElement "description" (Some "Tropical storm forming") []]),
           [].
    split; [reflexivity|]. split.
    + repeat constructor. simpl. discriminate.
    + exists [mkElement "title" (Some "Advisory") []], [].
      split; [reflexivity|]. split; [|reflexivity].
      repeat constructor. simpl. discriminate.
  - apply (proj2 (feed_reader_first_description sample_rt (feed_upstream 200 "bare")
                    RSS_FEED_SPC w0 _ bare_feed eq_refl eq_refl)).
    constructor.
Defined.

(** C6.  Whenever the HTTP request raises, or the body cannot be parsed as
    XML, the feed reader returns the text "Error fetching data: " followed
    by the details of the exception, which begins with
    "Error fetching data:"; and in every run the feed reader returns a
    value: no exception reaches the caller. *)
Theorem feed_reader_errors_are_values :
  forall rt up feed_url w,
    (exists v w', fetch_first_description_from_rss rt up feed_url w = (Ok v, w')) /\
    (forall e,
        feed_answer up w feed_url = Raise e \/
        (exists response,
            feed_answer up w feed_url = Ok response /\
            fromstring rt (content response) = Raise e) ->
        fst (fetch_first_description_from_rss rt up feed_url w)
        = Ok (PStr ("Error fetching data: " ++ exn_str e)) /\
        String.prefix "Error fetching data:" ("Error fetching data: " ++ exn_str e)
        = true).
Proof.
  intros rt up feed_url w. split.
  - destruct (obind (feed_answer up w feed_url)
                (fun response => fromstring rt (content response))) as [root|e] eqn:E.
    + destruct (feed_answer up w feed_url) as [response|e] eqn:Ha; simpl in E;
        [|discriminate].
      rewrite (fetch_feed_parsed _ _ _ _ _ _ Ha E). eauto.
    + rewrite (fetch_feed_raised _ _ _ _ _ E). eauto.
  - intros e H. split; [|reflexivity].
    rewrite (fetch_feed_raised rt up feed_url w e); [reflexivity|].
    destruct H as [H|(response & H & Hp)]; rewrite H; simpl; auto.
Qed.

Lemma feed_reader_errors_are_values_witness :
  fst (fetch_first_description_from_rss sample_rt down_upstream RSS_FEED_NHC w0)
  = Ok (PStr "Error fetching data: Max retries exceeded") /\
  fst (fetch_first_description_from_rss sample_rt (feed_upstream 200 "not xml")
         RSS_FEED_NHC w0)
  = Ok (PStr "Error fetching data: syntax error: line 1, column 0").
Proof.
  split.
  - apply (proj2 (feed_reader_errors_are_values sample_rt down_upstream
                    RSS_FEED_NHC w0) (mk_exn ConnectionError "Max retries exceeded")).
    left. reflexivity.
  - apply (proj2 (feed_reader_errors_are_values sample_rt (feed_upstream 200 "not xml")
                    RSS_FEED_NHC w0) (mk_exn ParseError "syntax error: line 1, column 0")).
    right. eexists. split; reflexivity.
Defined.

(** The feed reader does not look at the status code: a body that parses is
    read whatever the status of the response. *)
Example feed_reader_ignores_status :
  fst (fetch_first_description_from_rss sample_rt (feed_upstream 500 "storm")
         RSS_FEED_NHC w0)
  = Ok (PStr "Tropical storm forming").
Proof. reflexivity. Qed.

(** C9.  When the first [description] child met among the items is an empty
    element (its text is [None]), the feed reader returns [None]: no text
    at all, and in particular not "No description available.". *)
Theorem feed_reader_empty_description :
  forall rt up feed_url w response root description,
    feed_answer up w feed_url = Ok response ->
    fromstring rt (content response) = Ok root ->
    first_description_in (findall_descendants root "item") description ->
    ET.text description = None ->
    fst (fetch_first_description_from_rss rt up feed_url w) = Ok PNone /\
    (forall s, fst (fetch_first_description_from_rss rt up feed_url w) <> Ok (PStr s)).
Proof.
  intros rt up feed_url w response root description Ha Hp Hd Ht.
  rewrite (fetch_feed_parsed _ _ _ _ _ _ Ha Hp). simpl.
  rewrite (first_description_found _ _ Hd). unfold text_of. rewrite Ht.
  split; [reflexivity|]. intros s H. discriminate H.
Qed.

Lemma feed_reader_empty_description_witness :
  fst (fetch_first_description_from_rss sample_rt (feed_upstream 200 "hollow")
         RSS_FEED_NHC w0) = Ok PNone.
Proof.
  apply (feed_reader_empty_description sample_rt (feed_upstream 200 "hollow")
           RSS_FEED_NHC w0 _ hollow_feed (mkElement "description" None [])
           eq_refl eq_refl).
  - exists [], (mkElement "item" None
                  [mkElement "title" (Some "Advisory") [];
                   mkElement "description" None []]),
           [mkElement "item" None
              [mkElement "description" (Some "Tropical storm forming") []]].
    split; [reflexivity|]. split; [constructor|].
    exists [mkElement "title" (Some "Advisory") []], [].
    split; [reflexivity|]. split; [|reflexivity].
    repeat constructor. simpl. discriminate.
  - reflexivity.
Defined.

(* ================================================================== *)
(** ** Weather client                                                  *)
(* ================================================================== *)

Section RetrievalFacts.

Variable rt : Runtime.
Variable extract : pyval -> outcome pyval.

Lemma ok_raise_for_status :
  forall r, ok r = true -> raise_for_status r = Ok tt.
Proof.
  intros r. unfold ok. destruct (raise_for_status r) as [[]|e]; [reflexivity|discriminate].
Qed.

Lemma not_ok_raise_for_status :
  forall r, ok r = false -> exists e, raise_for_status r = Raise e.
Proof.
  intros r. unfold ok. destruct (raise_for_status r) as [[]|e]; [discriminate|eauto].
Qed.

Lemma retrieve_failed :
  forall o, retrieval_failed rt extract o -> exists e, retrieve rt extract o = Raise e.
Proof.
  intros o H. unfold retrieve. destruct H as [e|r Hs|r e Hj|r data e Hj Hx]; simpl.
  - eauto.
  - destruct (not_ok_raise_for_status _ Hs) as [e ->]. simpl. eauto.
  - destruct (raise_for_status r) as [[]|e']; simpl; [rewrite Hj|]; simpl; eauto.
  - destruct (raise_for_status r) as [[]|e']; simpl; [rewrite Hj|]; simpl; eauto.
Qed.

Lemma retrieve_retrieved :
  forall o v, retrieved rt extract o v -> retrieve rt extract o = Ok v.
Proof.
  intros o v (r & data & -> & Hs & Hj & Hx). unfold retrieve. simpl.
  rewrite (ok_raise_for_status _ Hs). simpl. rewrite Hj. simpl. exact Hx.
Qed.

(** Every answer either fails or delivers. *)
Lemma retrieve_cases :
  forall o,
    (exists e, retrieve rt extract o = Raise e /\ retrieval_failed rt extract o) \/
    (exists v, retrieve rt extract o = Ok v /\ retrieved rt extract o v).
Proof.
  intros [r|e]; [|left; exists e; split; [reflexivity|constructor]].
  unfold retrieve. simpl.
  destruct (raise_for_status r) as [[]|e] eqn:Hs; simpl.
  - assert (Hok : ok r = true) by (unfold ok; now rewrite Hs).
    destruct (response_json rt r) as [data|e] eqn:Hj; simpl.
    + destruct (extract data) as [v|e] eqn:Hx.
      * right. exists v. split; [reflexivity|]. exists r, data. auto.
      * left. exists e. split; [reflexivity|]. now apply shape_unexpected with data e.
    + left. exists e. split; [reflexivity|]. now apply body_not_json with e.
  - left. exists e. split; [reflexivity|]. apply status_not_ok.
    unfold ok. now rewrite Hs.
Qed.

End RetrievalFacts.

Lemma entry_of_failed :
  forall param e, error_text param (entry_of param (Raise e)).
Proof. intros param e. exists (exn_str e). reflexivity. Qed.

(** One turn of the loop of [fetch_weather_data]. *)
Lemma fetch_weather_param_run :
  forall rt up param endpoint weather_data w,
    fetch_weather_param rt up (param, endpoint) weather_data w
    = (Ok (Continue
             (dict_set weather_data param
                (entry_of param
                   (retrieve rt first_value_of (current_answer rt up w 0 endpoint))))),
       mkWorld (S (ticks w))
         (sent w ++ [mkRequest (current_url rt (clock up (ticks w)) endpoint)
                       (Some (username rt, password rt))])
         (page w)).
Proof.
  intros rt up param endpoint weather_data w.
  unfold fetch_weather_param, try_except, bind, utcnow, requests_get, lift, ret,
    current_answer, retrieve.
  simpl. rewrite !Nat.add_0_r.
  destruct (answer up (List.length (sent w)) _) as [response|e]; simpl.
  - destruct (raise_for_status response) as [[]|e]; simpl.
    + destruct (response_json rt response) as [data|e]; simpl.
      * destruct (first_value_of data) as [v|e]; simpl.
        -- reflexivity.
        -- now destruct (isinstance e HTTPError).
      * now destruct (isinstance e HTTPError).
    + now destruct (isinstance e HTTPError).
  - now destruct (isinstance e HTTPError).
Qed.

(** The answer to a later request of a call, seen from the world the call
    has reached by then. *)
Lemma current_answer_later :
  forall rt up w w' k endpoint,
    ticks w' = (ticks w + k)%nat ->
    List.length (sent w') = (List.length (sent w) + k)%nat ->
    current_answer rt up w' 0 endpoint = current_answer rt up w k endpoint.
Proof.
  intros rt up w w' k endpoint Ht Hs. unfold current_answer.
  rewrite !Nat.add_0_r, Ht, Hs. reflexivity.
Qed.

(** The whole run of [fetch_weather_data]: four turns, one entry each. *)
Lemma fetch_weather_data_run :
  forall rt up latitude longitude w,
    let e k param endpoint :=
      entry_of param (retrieve rt first_value_of (current_answer rt up w k endpoint)) in
    let r k endpoint :=
      mkRequest (current_url rt (clock up (ticks w + k)) endpoint)
        (Some (username rt, password rt)) in
    fetch_weather_data rt up latitude longitude w
    = (Ok [ ("temperature",
             e 0%nat "temperature" ("t_2m:F/" ++ latitude ++ "," ++ longitude));
            ("weather_symbol",
             e 1%nat "weather_symbol"
               ("weather_symbol_1h:idx/" ++ latitude ++ "," ++ longitude));
            ("heavy_rain_warning",
             e 2%nat "heavy_rain_warning"
               ("precip_1h:mm/" ++ latitude ++ "," ++ longitude));
            ("air_quality",
             e 3%nat "air_quality" ("pm2p5:ugm3/" ++ latitude ++ "," ++ longitude)) ],
       mkWorld (ticks w + 4)
         (sent w ++ [ r 0%nat ("t_2m:F/" ++ latitude ++ "," ++ longitude);
                      r 1%nat ("weather_symbol_1h:idx/" ++ latitude ++ "," ++ longitude);
                      r 2%nat ("precip_1h:mm/" ++ latitude ++ "," ++ longitude);
                      r 3%nat ("pm2p5:ugm3/" ++ latitude ++ "," ++ longitude) ])
         (page w)).
Proof.
  intros rt up latitude longitude w e r.
  unfold fetch_weather_data, current_params. cbn [for_each].
  unfold bind at 1 2. rewrite fetch_weather_param_run.
  unfold bind at 1. rewrite fetch_weather_param_run.
  unfold bind at 1. rewrite fetch_weather_param_run.
  unfold bind at 1. rewrite fetch_weather_param_run.
  cbn [ticks sent page].
  rewrite (current_answer_later rt up w (mkWorld (S (S (S _))) _ _) 3)
    by (cbn; rewrite ?length_app; cbn; lia).
  rewrite (current_answer_later rt up w (mkWorld (S (S _)) _ _) 2)
    by (cbn; rewrite ?length_app; cbn; lia).
  rewrite (current_answer_later rt up w (mkWorld (S _) _ _) 1)
    by (cbn; rewrite ?length_app; cbn; lia).
  unfold ret. cbn [dict_set String.eqb Ascii.eqb Bool.eqb].
  subst e r. cbv beta.
  rewrite <- !app_assoc. cbn [app].
  replace (S (S (S (S (ticks w))))) with (ticks w + 4)%nat by lia.
  replace (S (ticks w)) with (ticks w + 1)%nat by lia.
  replace (S (ticks w + 1)) with (ticks w + 2)%nat by lia.
  replace (S (ticks w + 2)) with (ticks w + 3)%nat by lia.
  rewrite Nat.add_0_r. reflexivity.
Qed.

(** C3.  [fetch_weather_data] always returns a mapping (no exception leaves
    the call) with exactly the four entries temperature, weather_symbol,
    heavy_rain_warning and air_quality, and it sends all four requests
    whatever the answers are.  For each parameter, if its own request
    raises, has a non-success status, or its body cannot be decoded or has
    not the expected shape, the entry is an error text for that parameter;
    if it is retrieved, the entry is the value, whatever happened to the
    other parameters. *)
Theorem fetch_weather_data_per_parameter :
  forall rt up latitude longitude w,
  exists weather_data w',
    fetch_weather_data rt up latitude longitude w = (Ok weather_data, w') /\
    map fst weather_data
    = ["temperature"; "weather_symbol"; "heavy_rain_warning"; "air_quality"] /\
    List.length (sent w') = (List.length (sent w) + 4)%nat /\
    forall k param endpoint,
      nth_error (current_params latitude longitude) k = Some (param, endpoint) ->
      (retrieval_failed rt first_value_of (current_answer rt up w k endpoint) ->
       exists v, dict_find weather_data param = Some v /\ error_text param v) /\
      (forall v,
          retrieved rt first_value_of (current_answer rt up w k endpoint) v ->
          dict_find weather_data param = Some v).
Proof.
  intros rt up latitude longitude w.
  rewrite fetch_weather_data_run. cbv zeta. unfold current_params.
  remember ("t_2m:F/" ++ latitude ++ "," ++ longitude) as ep0 eqn:E0.
  remember ("weather_symbol_1h:idx/" ++ latitude ++ "," ++ longitude) as ep1 eqn:E1.
  remember ("precip_1h:mm/" ++ latitude ++ "," ++ longitude) as ep2 eqn:E2.
  remember ("pm2p5:ugm3/" ++ latitude ++ "," ++ longitude) as ep3 eqn:E3.
  clear E0 E1 E2 E3.
  eexists. eexists. split; [reflexivity|].
  split; [reflexivity|].
  split; [cbn [sent]; rewrite length_app; reflexivity|].
  intros k param endpoint Hk.
  destruct k as [|[|[|[|k]]]]; cbn [nth_error] in Hk;
    try (destruct k; discriminate Hk);
    injection Hk as Hp He; subst param endpoint; (split; [intro Hf | intros v Hv]).
  all: try (destruct (retrieve_failed _ _ _ Hf) as [e ->];
            eexists; split; [reflexivity | apply entry_of_failed]).
  all: rewrite (retrieve_retrieved _ _ _ _ Hv); reflexivity.
Qed.

(** The example of the specification: one parameter is retrieved (72.5), one
    gets a status 500; here also one request raises and one body is no JSON. *)
Example fetch_weather_data_mixed :
  fst (fetch_weather_data sample_rt mixed_upstream LATITUDE LONGITUDE w0)
  = Ok [ ("temperature", f72_5);
         ("weather_symbol",
          PStr ("Error fetching weather_symbol: 500 Server Error: Internal Server Error"
                ++ " for url: https://api.meteomatics.com/1717200000000001Z/"
                ++ "weather_symbol_1h:idx/33.4473,-84.1469/json"));
         ("heavy_rain_warning",
          PStr "Error fetching heavy_rain_warning: Connection aborted.");
         ("air_quality",
          PStr "Error fetching air_quality: Expecting value: line 1 column 1 (char 0)") ].
Proof. vm_compute. reflexivity. Qed.

(** One turn of the loop of [fetch_5_day_forecast]. *)
Lemma fetch_forecast_param_run :
  forall rt up start_date end_date interval param endpoint forecast_data w,
    let rq := mkRequest (forecast_url rt start_date end_date interval endpoint)
                (Some (username rt, password rt)) in
    fetch_forecast_param rt up start_date end_date interval (param, endpoint)
      forecast_data w
    = (Ok match retrieve rt dates_of (answer up (List.length (sent w)) rq) with
          | Ok dates => Continue (forecast_data ++ [dates])%list
          | Raise e => Return (PStr ("Error fetching " ++ param ++ ": " ++ exn_str e))
          end,
       mkWorld (ticks w) (sent w ++ [rq]) (page w)).
Proof.
  intros rt up start_date end_date interval param endpoint forecast_data w rq.
  unfold fetch_forecast_param, try_except, bind, requests_get, lift, ret, retrieve.
  fold rq.
  destruct (answer up (List.length (sent w)) rq) as [response|e]; simpl.
  - destruct (raise_for_status response) as [[]|e]; simpl.
    + destruct (response_json rt response) as [data|e]; simpl.
      * destruct (dates_of data) as [v|e]; simpl.
        -- reflexivity.
        -- now destruct (isinstance e HTTPError).
      * now destruct (isinstance e HTTPError).
    + now destruct (isinstance e HTTPError).
  - now destruct (isinstance e HTTPError).
Qed.

(** The whole run of [fetch_5_day_forecast]. *)
Lemma fetch_5_day_forecast_run :
  forall rt up latitude longitude w,
    let r endpoint :=
      mkRequest
        (forecast_url rt (clock up (ticks w)) (clock up (ticks w) + timedelta_days 5)
           "PT24H" endpoint)
        (Some (username rt, password rt)) in
    let r0 := r ("t_2m:F/" ++ latitude ++ "," ++ longitude) in
    let r1 := r ("weather_symbol_1h:idx/" ++ latitude ++ "," ++ longitude) in
    fetch_5_day_forecast rt up latitude longitude w
    = match retrieve rt dates_of
              (forecast_answer rt up w 0 ("t_2m:F/" ++ latitude ++ "," ++ longitude)) with
      | Raise e =>
          (Ok (PStr ("Error fetching temperature: " ++ exn_str e)),
           mkWorld (S (ticks w)) (sent w ++ [r0]) (page w))
      | Ok temperatures =>
          (match retrieve rt dates_of
                   (forecast_answer rt up w 1
                      ("weather_symbol_1h:idx/" ++ latitude ++ "," ++ longitude)) with
           | Raise e => Ok (PStr ("Error fetching weather_symbol: " ++ exn_str e))
           | Ok symbols => Ok (PList [temperatures; symbols])
           end,
           mkWorld (S (ticks w)) (sent w ++ [r0; r1]) (page w))
      end.
Proof.
  intros rt up latitude longitude w r r0 r1.
  unfold fetch_5_day_forecast, forecast_params, forecast_answer.
  unfold bind at 1. unfold utcnow at 1. cbn [for_each].
  subst r0 r1 r. cbv beta.
  unfold bind. rewrite fetch_forecast_param_run. cbv zeta.
  cbn [ticks sent page]. rewrite Nat.add_0_r.
  match goal with
  | |- context [retrieve rt dates_of ?a] =>
      destruct (retrieve rt dates_of a) as [temperatures|e]
  end.
  - rewrite fetch_forecast_param_run. cbv zeta.
    cbn [ticks sent page].
    rewrite length_app. cbn [List.length].
    rewrite <- app_assoc. cbn [app].
    match goal with
    | |- context [retrieve rt dates_of ?a] =>
        destruct (retrieve rt dates_of a) as [symbols|e]
    end; reflexivity.
  - reflexivity.
Qed.

(** C2.  If retrieving or parsing the temperature series or the
    weather_symbol series fails (the request raises, the status is not a
    success, the body is no JSON or has not the nested shape),
    [fetch_5_day_forecast] returns one error text and no sequence of
    series; when it is the temperature query that fails, the text is the
    one of temperature and the symbol query is not even sent, whatever its
    answer would be. *)
Theorem fetch_forecast_fails_fast :
  forall rt up latitude longitude w,
    retrieval_failed rt dates_of
      (forecast_answer rt up w 0 ("t_2m:F/" ++ latitude ++ "," ++ longitude)) \/
    retrieval_failed rt dates_of
      (forecast_answer rt up w 1
         ("weather_symbol_1h:idx/" ++ latitude ++ "," ++ longitude)) ->
    exists v w',
      fetch_5_day_forecast rt up latitude longitude w = (Ok v, w') /\
      (error_text "temperature" v \/ error_text "weather_symbol" v) /\
      (forall series, v <> PList series) /\
      (retrieval_failed rt dates_of
         (forecast_answer rt up w 0 ("t_2m:F/" ++ latitude ++ "," ++ longitude)) ->
       error_text "temperature" v /\
       List.length (sent w') = S (List.length (sent w))).
Proof.
  intros rt up latitude longitude w H.
  rewrite fetch_5_day_forecast_run. cbv zeta.
  remember ("t_2m:F/" ++ latitude ++ "," ++ longitude) as ep0 eqn:E0.
  remember ("weather_symbol_1h:idx/" ++ latitude ++ "," ++ longitude) as ep1 eqn:E1.
  clear E0 E1.
  destruct (retrieve_cases rt dates_of (forecast_answer rt up w 0 ep0))
    as [(e & -> & Hf)|(temperatures & Ht & Hr)].
  - eexists. eexists. split; [reflexivity|].
    split; [left; apply (entry_of_failed "temperature" e)|].
    split; [intros series F; discriminate F|].
    intros _. split; [apply (entry_of_failed "temperature" e)|].
    cbn [sent]. rewrite length_app, Nat.add_comm. reflexivity.
  - rewrite Ht.
    assert (Hs : retrieval_failed rt dates_of (forecast_answer rt up w 1 ep1)).
    { destruct H as [H|H]; [|exact H].
      destruct (retrieve_failed _ _ _ H) as [e He]. congruence. }
    destruct (retrieve_failed _ _ _ Hs) as [e ->].
    eexists. eexists. split; [reflexivity|].
    split; [right; apply (entry_of_failed "weather_symbol" e)|].
    split; [intros series F; discriminate F|].
    intro Hf. destruct (retrieve_failed _ _ _ Hf) as [e' He']. congruence.
Qed.

Lemma fetch_forecast_fails_fast_witness :
  retrieved sample_rt dates_of
    (forecast_answer sample_rt failing_temperature_upstream w0 1
       ("weather_symbol_1h:idx/" ++ LATITUDE ++ "," ++ LONGITUDE))
    (PList symbols_12) /\
  exists v w',
    fetch_5_day_forecast sample_rt failing_temperature_upstream LATITUDE LONGITUDE w0
    = (Ok v, w') /\
    (error_text "temperature" v \/ error_text "weather_symbol" v) /\
    (forall series, v <> PList series) /\
    (retrieval_failed sample_rt dates_of
       (forecast_answer sample_rt failing_temperature_upstream w0 0
          ("t_2m:F/" ++ LATITUDE ++ "," ++ LONGITUDE)) ->
     error_text "temperature" v /\
     List.length (sent w') = S (List.length (sent w0))).
Proof.
  split.
  - eexists. eexists. repeat split; reflexivity.
  - apply (fetch_forecast_fails_fast sample_rt failing_temperature_upstream
             LATITUDE LONGITUDE w0).
    left. apply status_not_ok. reflexivity.
Defined.

Example fetch_forecast_failing_temperature :
  fst (fetch_5_day_forecast sample_rt failing_temperature_upstream
         LATITUDE LONGITUDE w0)
  = Ok (PStr ("Error fetching temperature: 503 Server Error: Service Unavailable"
              ++ " for url: https://api.meteomatics.com/1717200000000000Z--"
              ++ "1717632000000000Z:PT24H/t_2m:F/33.4473,-84.1469/json")).
Proof. vm_compute. reflexivity. Qed.

(** C10.  When both requests of [fetch_5_day_forecast] are answered with a
    success status and both bodies decode to a document of the nested
    shape, the result is a sequence of exactly two series: at index 0 the
    [dates] of the temperature answer, at index 1 the [dates] of the
    weather_symbol answer, each passed on as the upstream sent it. *)
Theorem fetch_forecast_series_order :
  forall rt up latitude longitude w temperatures symbols,
    retrieved rt dates_of
      (forecast_answer rt up w 0 ("t_2m:F/" ++ latitude ++ "," ++ longitude))
      temperatures ->
    retrieved rt dates_of
      (forecast_answer rt up w 1
         ("weather_symbol_1h:idx/" ++ latitude ++ "," ++ longitude))
      symbols ->
    fst (fetch_5_day_forecast rt up latitude longitude w)
    = Ok (PList [temperatures; symbols]) /\
    getitem_int (PList [temperatures; symbols]) 0 = Ok temperatures /\
    getitem_int (PList [temperatures; symbols]) 1 = Ok symbols.
Proof.
  intros rt up latitude longitude w temperatures symbols Ht Hs.
  rewrite fetch_5_day_forecast_run. cbv zeta.
  rewrite (retrieve_retrieved _ _ _ _ Ht), (retrieve_retrieved _ _ _ _ Hs).
  repeat split.
Qed.

Lemma fetch_forecast_series_order_witness :
  fst (fetch_5_day_forecast sample_rt (forecast_upstream "temperatures" "symbols")
         LATITUDE LONGITUDE w0)
  = Ok (PList [PList temperatures_12; PList symbols_12]) /\
  getitem_int (PList [PList temperatures_12; PList symbols_12]) 0
  = Ok (PList temperatures_12) /\
  getitem_int (PList [PList temperatures_12; PList symbols_12]) 1
  = Ok (PList symbols_12).
Proof.
  apply (fetch_forecast_series_order sample_rt (forecast_upstream "temperatures" "symbols")
           LATITUDE LONGITUDE w0).
  - eexists. eexists. repeat split; reflexivity.
  - eexists. eexists. repeat split; reflexivity.
Defined.

(* ================================================================== *)
(** ** Determinism of the fetch functions                              *)
(* ================================================================== *)

(** The result of the feed reader as a function of the answer alone. *)
Lemma fetch_feed_result :
  forall rt up feed_url w,
    fst (fetch_first_description_from_rss rt up feed_url w)
    = Ok match obind (feed_answer up w feed_url)
                 (fun response => fromstring rt (content response)) with
         | Ok root => first_description (findall_descendants root "item")
         | Raise e => PStr ("Error fetching data: " ++ exn_str e)
         end.
Proof.
  intros rt up feed_url w.
  destruct (obind (feed_answer up w feed_url)
              (fun response => fromstring rt (content response))) as [root|e] eqn:E.
  - destruct (feed_answer up w feed_url) as [response|e] eqn:Ha; simpl in E;
      [|discriminate].
    now rewrite (fetch_feed_parsed _ _ _ _ _ _ Ha E).
  - now rewrite (fetch_feed_raised _ _ _ _ _ E).
Qed.

Lemma ok_same_status :
  forall r1 r2, status_code r1 = status_code r2 -> ok r1 = ok r2.
Proof.
  intros r1 r2 H. unfold ok, raise_for_status. rewrite H.
  destruct ((400 <=? status_code r2) && (status_code r2 <? 500)); [reflexivity|].
  destruct ((500 <=? status_code r2) && (status_code r2 <? 600)); reflexivity.
Qed.

(** The [try] block makes the same of two answers that carry the same
    response, when no error status is reported under two different URLs. *)
Lemma retrieve_same_answer :
  forall rt extract o1 o2,
    reads_body_only rt ->
    same_answer o1 o2 ->
    retrieve rt extract o1 = retrieve rt extract o2.
Proof.
  intros rt extract [r1|e1] [r2|e2] Hb [Hs Hu]; simpl in Hs; try contradiction.
  - destruct Hs as (Hc & Hr & Hy). unfold retrieve. simpl.
    assert (E : raise_for_status r1 = raise_for_status r2).
    { destruct Hu as [Hk|Hl].
      - rewrite (ok_raise_for_status _ Hk).
        rewrite (ok_same_status _ _ Hc) in Hk.
        now rewrite (ok_raise_for_status _ Hk).
      - unfold raise_for_status. now rewrite Hc, Hr, Hl. }
    rewrite E, (Hb r1 r2 Hy). reflexivity.
  - now subst e2.
Qed.

(** C8 (as amended).  The three fetch functions keep no state between
    calls and their results are determined by the answers to their
    requests.  Two invocations with the same arguments, started in any two
    worlds (at different instants, after different earlier calls), return
    the same value when their requests receive the same HTTP responses
    (status, reason and body, or the same exception), provided that, for
    the two weather functions, every answer has a success status or is
    reported under the same URL: the text of a 4xx or 5xx answer quotes
    the requested URL, which contains the instant of the call. *)
Theorem fetch_functions_stateless :
  forall rt up1 up2 w1 w2,
    reads_body_only rt ->
    (forall feed_url,
        same_http_response (feed_answer up1 w1 feed_url) (feed_answer up2 w2 feed_url) ->
        fst (fetch_first_description_from_rss rt up1 feed_url w1)
        = fst (fetch_first_description_from_rss rt up2 feed_url w2)) /\
    (forall latitude longitude,
        (forall k param endpoint,
            nth_error (current_params latitude longitude) k = Some (param, endpoint) ->
            same_answer (current_answer rt up1 w1 k endpoint)
              (current_answer rt up2 w2 k endpoint)) ->
        fst (fetch_weather_data rt up1 latitude longitude w1)
        = fst (fetch_weather_data rt up2 latitude longitude w2)) /\
    (forall latitude longitude,
        (forall k param endpoint,
            nth_error (forecast_params latitude longitude) k = Some (param, endpoint) ->
            same_answer (forecast_answer rt up1 w1 k endpoint)
              (forecast_answer rt up2 w2 k endpoint)) ->
        fst (fetch_5_day_forecast rt up1 latitude longitude w1)
        = fst (fetch_5_day_forecast rt up2 latitude longitude w2)).
Proof.
  intros rt up1 up2 w1 w2 Hb. split; [|split].
  - intros feed_url H. rewrite !fetch_feed_result.
    destruct (feed_answer up1 w1 feed_url) as [r1|e1];
      destruct (feed_answer up2 w2 feed_url) as [r2|e2];
      simpl in H; try contradiction.
    + destruct H as (_ & _ & Hy). simpl. now rewrite Hy.
    + now subst e2.
  - intros latitude longitude H.
    rewrite !fetch_weather_data_run. cbv zeta. cbn [fst].
    rewrite (retrieve_same_answer rt first_value_of _ _ Hb
               (H 0%nat "temperature" _ eq_refl)).
    rewrite (retrieve_same_answer rt first_value_of _ _ Hb
               (H 1%nat "weather_symbol" _ eq_refl)).
    rewrite (retrieve_same_answer rt first_value_of _ _ Hb
               (H 2%nat "heavy_rain_warning" _ eq_refl)).
    rewrite (retrieve_same_answer rt first_value_of _ _ Hb
               (H 3%nat "air_quality" _ eq_refl)).
    reflexivity.
  - intros latitude longitude H.
    rewrite !fetch_5_day_forecast_run. cbv zeta.
    rewrite (retrieve_same_answer rt dates_of _ _ Hb
               (H 0%nat "temperature" _ eq_refl)).
    rewrite (retrieve_same_answer rt dates_of _ _ Hb
               (H 1%nat "weather_symbol" _ eq_refl)).
    destruct (retrieve rt dates_of (forecast_answer rt up2 w2 0 _)); reflexivity.
Qed.

Lemma sample_rt_reads_body_only : reads_body_only sample_rt.
Proof.
  intros r r' H. unfold sample_rt, sample_json. cbn [response_json].
  now rewrite H.
Qed.

Lemma fetch_functions_stateless_witness :
  fst (fetch_first_description_from_rss sample_rt (feed_upstream 200 "storm")
         RSS_FEED_NHC w0)
  = fst (fetch_first_description_from_rss sample_rt (feed_upstream 200 "storm")
           RSS_FEED_NHC w_later) /\
  fst (fetch_weather_data sample_rt (feed_upstream 200 "current-72.5")
         LATITUDE LONGITUDE w0)
  = fst (fetch_weather_data sample_rt (feed_upstream 200 "current-72.5")
           LATITUDE LONGITUDE w_later) /\
  fst (fetch_5_day_forecast sample_rt (feed_upstream 200 "temperatures")
         LATITUDE LONGITUDE w0)
  = fst (fetch_5_day_forecast sample_rt (feed_upstream 200 "temperatures")
           LATITUDE LONGITUDE w_later).
Proof.
  split; [|split].
  - apply (proj1 (fetch_functions_stateless sample_rt
                    (feed_upstream 200 "storm") (feed_upstream 200 "storm")
                    w0 w_later sample_rt_reads_body_only)).
    repeat split.
  - apply (proj1 (proj2 (fetch_functions_stateless sample_rt
                           (feed_upstream 200 "current-72.5")
                           (feed_upstream 200 "current-72.5")
                           w0 w_later sample_rt_reads_body_only))).
    intros k param endpoint _. split; [repeat split|left; reflexivity].
  - apply (proj2 (proj2 (fetch_functions_stateless sample_rt
                           (feed_upstream 200 "temperatures")
                           (feed_upstream 200 "temperatures")
                           w0 w_later sample_rt_reads_body_only))).
    intros k param endpoint _. split; [repeat split|left; reflexivity].
Defined.

(** C8 (counterexample).  Identical upstream responses do not suffice: the
    same upstream, answering every request with the same status 500, the
    same reason and the same body, gives [fetch_weather_data] called twice
    in a row two different results, because each error text quotes the
    URL of its request and that URL contains the instant of the call. *)
Lemma fetch_weather_data_differs_between_calls :
  reads_body_only sample_rt /\
  (forall k param endpoint,
      nth_error (current_params LATITUDE LONGITUDE) k = Some (param, endpoint) ->
      same_http_response
        (current_answer sample_rt outage_upstream w0 k endpoint)
        (current_answer sample_rt outage_upstream
           (snd (fetch_weather_data sample_rt outage_upstream LATITUDE LONGITUDE w0))
           k endpoint)) /\
  fst (fetch_weather_data sample_rt outage_upstream LATITUDE LONGITUDE w0)
  <> fst (fetch_weather_data sample_rt outage_upstream LATITUDE LONGITUDE
            (snd (fetch_weather_data sample_rt outage_upstream
                    LATITUDE LONGITUDE w0))).
Proof.
  split; [exact sample_rt_reads_body_only|]. split.
  - intros k param endpoint _. repeat split.
  - intro H. vm_compute in H. discriminate H.
Qed.

(* ================================================================== *)
(** ** Forecast aggregator                                             *)
(* ================================================================== *)

Lemma seq_item_nat :
  forall (A : Type) (l : list A) (n : nat) (x : A),
    nth_error l n = Some x -> seq_item l (Z.of_nat n) = Some x.
Proof.
  intros A l n x H. unfold seq_item.
  assert (Hn : (n < List.length l)%nat) by (apply nth_error_Some; congruence).
  destruct (Z.ltb_spec (Z.of_nat n) 0) as [F|_]; [lia|].
  destruct (Z.leb_spec 0 (Z.of_nat n)) as [_|F]; [|lia].
  destruct (Z.ltb_spec (Z.of_nat n) (Z.of_nat (List.length l))) as [_|F]; [|lia].
  simpl. now rewrite Nat2Z.id.
Qed.

(** [index] finds a sample at its own position when no earlier sample is
    equal to it. *)
Lemma list_index_first :
  forall l i x,
    nth_error l i = Some x ->
    py_eqb x x = true ->
    (forall j y, (j < i)%nat -> nth_error l j = Some y -> py_eqb y x = false) ->
    list_index l x = Some i.
Proof.
  induction l as [|y l IH]; intros i x Hi Hx Hb.
  - destruct i; discriminate Hi.
  - destruct i as [|i]; simpl in *.
    + inversion Hi; subst. now rewrite Hx.
    + rewrite (Hb 0%nat y) by (simpl; auto; lia).
      rewrite (IH i x Hi Hx); [reflexivity|].
      intros j z Hj Hz. apply (Hb (S j) z); [lia|exact Hz].
Qed.

Lemma list_index_distinct :
  forall series i x,
    distinct_samples series ->
    nth_error series i = Some x ->
    list_index series x = Some i.
Proof.
  intros series i x Hd Hi. apply list_index_first; [exact Hi| |].
  - now apply (Hd i i x x Hi Hi).
  - intros j y Hj Hy. destruct (py_eqb y x) eqn:E; [|reflexivity].
    apply (Hd j i y x Hy Hi) in E. lia.
Qed.

Lemma written_written :
  forall w a b, written (written w a) b = written w (a ++ b).
Proof. intros w a b. unfold written. simpl. now rewrite app_assoc. Qed.

Lemma written_nil : forall w, written w [] = w.
Proof. intros [t s p]. unfold written. simpl. now rewrite app_nil_r. Qed.

(** One turn of the loop of [display_5_day_forecast], for the sample at
    position [i] of the temperature series. *)
Lemma display_day_positional :
  forall temperatures symbols i t s d w,
    distinct_samples temperatures ->
    nth_error temperatures i = Some t ->
    nth_error symbols i = Some s ->
    joined t s d ->
    display_day (PList [PList temperatures; PList symbols]) t tt w
    = (Ok (Continue tt), written w (render_day d)).
Proof.
  intros temperatures symbols i t s d w Hd Ht Hs (v & code & Hdate & Hval & Hv & Hc & Hr).
  unfold display_day, bind, lift.
  rewrite Hdate, Hval.
  change (getitem_int (PList [PList temperatures; PList symbols]) 1)
    with (@Ok pyval (PList symbols)).
  change (getitem_int (PList [PList temperatures; PList symbols]) 0)
    with (@Ok pyval (PList temperatures)).
  cbv beta iota. unfold py_index. rewrite (list_index_distinct _ _ _ Hd Ht).
  unfold getitem_int. rewrite (seq_item_nat _ _ _ _ Hs).
  rewrite Hv, Hc, Hr. unfold st, ret, written, render_day. cbn [ticks sent page].
  rewrite <- !app_assoc. reflexivity.
Qed.

(** The loop over the rest of the temperature series, once the samples
    before it have been displayed. *)
Lemma display_loop_positional :
  forall rest_t rest_s days,
    joined_series rest_t rest_s days ->
    forall before_t before_s w,
      List.length before_t = List.length before_s ->
      distinct_samples (before_t ++ rest_t) ->
      for_each rest_t
        (display_day (PList [PList (before_t ++ rest_t); PList (before_s ++ rest_s)]))
        tt w
      = (Ok (Continue tt), written w (flat_map render_day days)).
Proof.
  induction 1 as [|t s d ts ss ds Hj Hjs IH]; intros before_t before_s w Hl Hd.
  - simpl. unfold ret. now rewrite written_nil.
  - cbn [for_each flat_map]. unfold bind.
    rewrite (display_day_positional _ _ (List.length before_t) t s d w Hd).
    + specialize (IH (before_t ++ [t])%list (before_s ++ [s])%list
                     (written w (render_day d))).
      rewrite <- !app_assoc in IH. cbn [app] in IH.
      rewrite IH.
      * now rewrite written_written.
      * rewrite !length_app. simpl. lia.
      * exact Hd.
    + rewrite nth_error_app2, Nat.sub_diag by lia. reflexivity.
    + rewrite nth_error_app2 by lia. rewrite Hl, Nat.sub_diag. reflexivity.
    + exact Hj.
Qed.

(** The aggregator is positional on series without repeated samples: when
    no two temperature samples are equal and the two series join position
    by position into [days], the page receives the four lines of each day,
    in order. *)
Lemma display_days_positional :
  forall temperatures symbols days w,
    distinct_samples temperatures ->
    joined_series temperatures symbols days ->
    display_days (PList [PList temperatures; PList symbols]) w
    = (Ok tt, written w (flat_map render_day days)).
Proof.
  intros temperatures symbols days w Hd Hj.
  unfold display_days, bind, lift.
  change (getitem_int (PList [PList temperatures; PList symbols]) 0)
    with (@Ok pyval (PList temperatures)).
  cbv beta iota. cbn [py_iter].
  pose proof (display_loop_positional _ _ _ Hj [] [] w eq_refl Hd) as H.
  cbn [app] in H. rewrite H. reflexivity.
Qed.

(** The example of the specification: [(d1,70),(d2,75)] joined with
    [(d1,"1"),(d2,"5")] gives Clear sky on d1 and Rain on d2. *)
Example display_days_example :
  display_days (PList [PList temperatures_12; PList symbols_12]) w0
  = (Ok tt,
     written w0
       (render_day (mkForecastDay (PStr d1) (PInt 70) "Clear sky" "☀️")
        ++ render_day (mkForecastDay (PStr d2) (PInt 75) "Rain" "🌧"))).
Proof. vm_compute. reflexivity. Qed.

Lemma temperatures_12_distinct : distinct_samples temperatures_12.
Proof.
  intros i j x y Hi Hj.
  destruct i as [|[|i]]; destruct j as [|[|j]]; simpl in Hi, Hj;
    try (destruct i; discriminate Hi); try (destruct j; discriminate Hj);
    inversion Hi; inversion Hj; subst; split; intro H;
    try reflexivity; try discriminate H.
Qed.

Example display_days_positional_example :
  display_days (PList [PList temperatures_12; PList symbols_12]) w0
  = (Ok tt,
     written w0
       (flat_map render_day
          [ mkForecastDay (PStr d1) (PInt 70) "Clear sky" "☀️";
            mkForecastDay (PStr d2) (PInt 75) "Rain" "🌧" ])).
Proof.
  apply display_days_positional.
  - exact temperatures_12_distinct.
  - repeat constructor.
    + exists (PStr "1"), 1. repeat split.
    + exists (PStr "5"), 5. repeat split.
Qed.

(** C1.  On a temperature series in which the same sample occurs twice,
    the aggregator is not positional: the two series are equally long and
    aligned on their dates, the symbol series has code "5" (Rain) at
    position 1, and yet the day written for position 1 shows the symbol of
    position 0 (Clear sky), because the position is looked up with
    [index], which stops at the first equal sample. *)
Theorem display_days_repeated_sample :
  joined_series temperatures_twice symbols_twice
    [ mkForecastDay (PStr d1) (PInt 70) "Clear sky" "☀️";
      mkForecastDay (PStr d1) (PInt 70) "Rain" "🌧" ] /\
  display_days (PList [PList temperatures_twice; PList symbols_twice]) w0
  = (Ok tt,
     written w0
       (flat_map render_day
          [ mkForecastDay (PStr d1) (PInt 70) "Clear sky" "☀️";
            mkForecastDay (PStr d1) (PInt 70) "Clear sky" "☀️" ])) /\
  page (snd (display_5_day_forecast sample_rt
               (forecast_upstream "temperatures-twice" "symbols-twice") w0))
  = (st_header "5-Day Weather Outlook for McDonough, GA"
     :: flat_map render_day
          [ mkForecastDay (PStr d1) (PInt 70) "Clear sky" "☀️";
            mkForecastDay (PStr d1) (PInt 70) "Clear sky" "☀️" ])%list.
Proof.
  split; [|split].
  - repeat constructor.
    + exists (PStr "1"), 1. repeat split.
    + exists (PStr "5"), 5. repeat split.
  - vm_compute. reflexivity.
  - vm_compute. reflexivity.
Qed.

(* ================================================================== *)
(** ** Conversion of condition codes                                   *)
(* ================================================================== *)

(** [int] raises nothing but these three classes. *)
Lemma py_int_raises :
  forall v e,
    py_int v = Raise e ->
    exn_cls e = TypeError \/ exn_cls e = ValueError \/ exn_cls e = OverflowError.
Proof.
  intros v e H. destruct v as [| b | z | f | s | l | d]; simpl in H;
    try discriminate H; try (inversion H; subst; simpl; tauto).
  - destruct f; inversion H; subst; simpl; tauto.
  - destruct (parse_int s); inversion H; subst; simpl; tauto.
Qed.

(** [int] on text: blanks around the literal are the six ASCII blanks and
    the blanks of other scripts, not the separators 28 to 31; digits of
    other scripts count; more than 4300 digits are refused. *)
Example py_int_text :
  map (fun s => match py_int (PStr s) with
                | Ok z => Some z
                | Raise _ => None
                end)
    [ " 5 "; "+5"; "0_7"; "٣"; "５６"; "5 ";
      String (ascii_of_nat 28) "5"; "5" ++ String (ascii_of_nat 31) "";
      "1__2"; "5é"; "1.0"; "" ]
  = [ Some 5; Some 5; Some 7; Some 3; Some 56; Some 5;
      None; None; None; None; None; None ].
Proof. vm_compute. reflexivity. Qed.

Example py_int_separator_raises :
  display_days
    (PList [PList [sample d1 (PInt 70)];
            PList [sample d1 (PStr (String (ascii_of_nat 28) "5"))]]) w0
  = (Raise (mk_exn ValueError
              ("invalid literal for int() with base 10: '"
               ++ String (ascii_of_nat 28) "5" ++ "'")), w0).
Proof. vm_compute. reflexivity. Qed.

(** In [main] a conversion that raises a [TypeError] or a [ValueError]
    gives the code 0. *)
Lemma current_symbol_id_fallback :
  forall weather_data w e,
    py_int (dict_get weather_data "weather_symbol" (PInt 0)) = Raise e ->
    exn_cls e = TypeError \/ exn_cls e = ValueError ->
    current_symbol_id weather_data w = (Ok 0, w).
Proof.
  intros weather_data w e H Hc.
  unfold current_symbol_id, try_except, lift. rewrite H.
  unfold isinstance. destruct Hc as [-> | ->]; reflexivity.
Qed.

(** The error texts of a failed retrieval are converted to 0 in [main]. *)
Example current_symbol_id_error_text :
  current_symbol_id
    [("weather_symbol", PStr "Error fetching weather_symbol: Connection aborted.")] w0
  = (Ok 0, w0).
Proof. reflexivity. Qed.

(** An infinite value is not covered by the handler of [main]. *)
Example current_symbol_id_infinity :
  current_symbol_id [("weather_symbol", PFloat (S754_infinity false))] w0
  = (Raise (mk_exn OverflowError "cannot convert float infinity to integer"), w0).
Proof. reflexivity. Qed.

(** C7.  A symbol value that cannot be converted (here JSON [null]) gives
    the code 0 in the current-weather path of [main], but in the forecast
    path the conversion error leaves [display_5_day_forecast], and with it
    [main], as a [TypeError]: that path has no fallback. *)
Theorem forecast_conversion_error_propagates :
  current_symbol_id [("weather_symbol", PNone)] w0 = (Ok 0, w0) /\
  display_days (PList [PList [sample d1 (PInt 70)]; PList symbols_null]) w0
  = (Raise (mk_exn TypeError
              "int() argument must be a string, a bytes-like object or a real number, not 'NoneType'"),
     w0) /\
  fst (display_5_day_forecast sample_rt (forecast_upstream "temperatures-one" "symbols-null") w0)
  = Raise (mk_exn TypeError
             "int() argument must be a string, a bytes-like object or a real number, not 'NoneType'") /\
  fst (main sample_rt session_upstream w0)
  = Raise (mk_exn TypeError
             "int() argument must be a string, a bytes-like object or a real number, not 'NoneType'").
Proof. repeat split; vm_compute; reflexivity. Qed.

(* ================================================================== *)
(** ** Further properties: the symbol table                            *)
(* ================================================================== *)

Lemma registered_keys :
  forall code, In code (map fst weather_symbol_map) <-> registered code.
Proof.
  intro code. unfold registered. split.
  - intro H. simpl in H.
    repeat (destruct H as [H|H]; [lia|]). contradiction.
  - intro H.
    assert (E : code = 0 \/ code = 1 \/ code = 2 \/ code = 3 \/ code = 4 \/ code = 5
                \/ code = 6 \/ code = 7 \/ code = 8 \/ code = 9 \/ code = 10
                \/ code = 11 \/ code = 12 \/ code = 13 \/ code = 14 \/ code = 15
                \/ code = 16 \/ code = 101 \/ code = 102 \/ code = 103
                \/ code = 104 \/ code = 105 \/ code = 106 \/ code = 107
                \/ code = 108 \/ code = 109 \/ code = 110 \/ code = 111
                \/ code = 112 \/ code = 113 \/ code = 114 \/ code = 115
                \/ code = 116) by lia.
    repeat (destruct E as [E|E]; [subst code; simpl; tauto|]).
    subst code. simpl. tauto.
Qed.

(** X1.  The symbol resolver answers with the fallback pair exactly for the
    integers outside 0..16 and 101..116: no registered code is described as
    "Unknown symbol", and 100 (the night of code 0) and 17 are unknown. *)
Theorem unknown_symbol_iff_unregistered :
  forall code,
    get_weather_symbol_description code = ("Unknown symbol", "❓")
    <-> ~ registered code.
Proof.
  intro code. split.
  - intros H R. apply registered_keys in R. simpl in R.
    repeat (destruct R as [R|R]; [subst code; vm_compute in H; discriminate H|]).
    contradiction.
  - intro N. unfold get_weather_symbol_description.
    rewrite symbol_find_None; [reflexivity|].
    intro H. apply N. now apply registered_keys.
Qed.

(** X2.  Night convention of the table: for every day code from 1 to 16,
    the code plus 100 is registered with the same description followed by
    " (night)". *)
Theorem night_code_description :
  forall code,
    1 <= code <= 16 ->
    fst (get_weather_symbol_description (code + 100))
    = fst (get_weather_symbol_description code) ++ " (night)".
Proof.
  intros code H.
  assert (E : code = 1 \/ code = 2 \/ code = 3 \/ code = 4 \/ code = 5
              \/ code = 6 \/ code = 7 \/ code = 8 \/ code = 9 \/ code = 10
              \/ code = 11 \/ code = 12 \/ code = 13 \/ code = 14 \/ code = 15
              \/ code = 16) by lia.
  repeat (destruct E as [E|E]; [subst code; reflexivity|]).
  subst code. reflexivity.
Qed.

Lemma night_code_description_witness :
  fst (get_weather_symbol_description 114) = "Thunderstorms" ++ " (night)".
Proof.
  apply (night_code_description 14). lia.
Defined.

(* ================================================================== *)
(** ** Further properties: the feed reader                             *)
(* ================================================================== *)

(** X3.  Whatever the upstream does, the feed reader sends exactly one
    request, to the feed URL and without credentials; it does not read
    the clock and writes nothing to the page. *)
Theorem feed_reader_single_request :
  forall rt up feed_url w,
    snd (fetch_first_description_from_rss rt up feed_url w)
    = requested w [mkRequest feed_url None].
Proof.
  intros rt up feed_url w.
  destruct (obind (feed_answer up w feed_url)
              (fun response => fromstring rt (content response))) as [root|e] eqn:E.
  - destruct (feed_answer up w feed_url) as [response|e] eqn:Ha; simpl in E;
      [|discriminate].
    now rewrite (fetch_feed_parsed _ _ _ _ _ _ Ha E).
  - now rewrite (fetch_feed_raised _ _ _ _ _ E).
Qed.

(** X4.  The feed reader reads nothing of a response but its body: two
    responses with the same content give the same result, whatever their
    status codes, reasons and URLs, and whatever feed was asked for. *)
Theorem feed_reader_reads_content_only :
  forall rt up1 up2 w1 w2 url1 url2 r1 r2,
    feed_answer up1 w1 url1 = Ok r1 ->
    feed_answer up2 w2 url2 = Ok r2 ->
    content r1 = content r2 ->
    fst (fetch_first_description_from_rss rt up1 url1 w1)
    = fst (fetch_first_description_from_rss rt up2 url2 w2).
Proof.
  intros rt up1 up2 w1 w2 url1 url2 r1 r2 H1 H2 Hc.
  rewrite !fetch_feed_result, H1, H2. simpl. now rewrite Hc.
Qed.

Lemma feed_reader_reads_content_only_witness :
  fst (fetch_first_description_from_rss sample_rt (feed_upstream 200 "storm")
         RSS_FEED_NHC w0)
  = fst (fetch_first_description_from_rss sample_rt (feed_upstream 404 "storm")
           RSS_FEED_SPC w_later).
Proof.
  apply (feed_reader_reads_content_only sample_rt
           (feed_upstream 200 "storm") (feed_upstream 404 "storm")
           w0 w_later RSS_FEED_NHC RSS_FEED_SPC _ _ eq_refl eq_refl).
  reflexivity.
Defined.

(* ================================================================== *)
(** ** Further properties: the weather client                          *)
(* ================================================================== *)

(** X5.  Whatever the answers are, [fetch_weather_data] reads the clock
    four times and sends four requests, one per parameter in the order of
    the parameter map, each to the URL made of the instant read for it and
    of its endpoint, each with the credentials; it writes nothing. *)
Theorem fetch_weather_data_requests :
  forall rt up latitude longitude w,
    snd (fetch_weather_data rt up latitude longitude w)
    = mkWorld (ticks w + 4)
        (sent w ++
         map (fun kpe : nat * (string * string) =>
                mkRequest
                  (current_url rt (clock up (ticks w + fst kpe)) (snd (snd kpe)))
                  (Some (username rt, password rt)))
           (combine (seq 0 4) (current_params latitude longitude)))
        (page w).
Proof.
  intros rt up latitude longitude w.
  rewrite fetch_weather_data_run. reflexivity.
Qed.

(** X6.  [fetch_5_day_forecast] reads the clock once and asks for both
    series over the same range, from that instant to five days later (in
    microseconds) at the interval PT24H, with the credentials.  The request
    for the symbols is sent exactly when the temperatures were retrieved. *)
Theorem fetch_forecast_requests :
  forall rt up latitude longitude w,
    let start_date := clock up (ticks w) in
    let rq endpoint :=
      mkRequest (forecast_url rt start_date (start_date + 432000000000) "PT24H" endpoint)
        (Some (username rt, password rt)) in
    let r0 := rq ("t_2m:F/" ++ latitude ++ "," ++ longitude) in
    let r1 := rq ("weather_symbol_1h:idx/" ++ latitude ++ "," ++ longitude) in
    let w' := snd (fetch_5_day_forecast rt up latitude longitude w) in
    ticks w' = S (ticks w) /\
    page w' = page w /\
    (retrieval_failed rt dates_of (answer up (List.length (sent w)) r0) ->
     sent w' = (sent w ++ [r0])%list) /\
    (forall temperatures,
        retrieved rt dates_of (answer up (List.length (sent w)) r0) temperatures ->
        sent w' = (sent w ++ [r0; r1])%list).
Proof.
  intros rt up latitude longitude w start_date rq r0 r1 w'.
  subst w' r1 r0 rq start_date. cbv beta.
  rewrite fetch_5_day_forecast_run. cbv zeta. unfold forecast_answer.
  rewrite Nat.add_0_r.
  change (timedelta_days 5) with 432000000000.
  match goal with
  | |- context [retrieve rt dates_of ?a] =>
      destruct (retrieve_cases rt dates_of a) as [(e & He & Hf)|(v & Hv & Hr)]
  end.
  - rewrite He. repeat split.
    intros temperatures Ht. rewrite (retrieve_retrieved _ _ _ _ Ht) in He.
    discriminate He.
  - rewrite Hv. repeat split.
    intro Hf. destruct (retrieve_failed _ _ _ Hf) as [e He]. congruence.
Qed.

Lemma obind_Ok :
  forall (A B : Type) (o : outcome A) (k : A -> outcome B) (b : B),
    obind o k = Ok b -> exists a, o = Ok a /\ k a = Ok b.
Proof.
  intros A B [a|e] k b H; simpl in H; [eauto|discriminate H].
Qed.

Lemma getitem_str_Ok :
  forall x k v,
    getitem_str x k = Ok v <-> exists d, x = PDict d /\ dict_find d k = Some v.
Proof.
  intros x k v. split.
  - destruct x; simpl; try discriminate.
    destruct (dict_find d k) as [u|] eqn:E; [|discriminate].
    intro H. inversion H; subst. eauto.
  - intros (d & -> & H). simpl. now rewrite H.
Qed.

Lemma seq_item_0 :
  forall (A : Type) (l : list A), seq_item l 0 = hd_error l.
Proof. intros A [|x l]; reflexivity. Qed.

(** The characters of a text are texts. *)
Lemma chars_head :
  forall s, hd_error (chars s) = None \/ exists t, hd_error (chars s) = Some (PStr t).
Proof.
  intros [|b0 r]; [now left|]. right. cbn [chars].
  destruct (utf8_width b0) as [|[|[|[|[|n]]]]]; try (eexists; reflexivity).
  - destruct r as [|b1 r1]; eexists; reflexivity.
  - destruct r as [|b1 [|b2 r2]]; eexists; reflexivity.
  - destruct r as [|b1 [|b2 [|b3 r3]]]; eexists; reflexivity.
Qed.

(** The first item of a value is a mapping only if the value is a list. *)
Lemma getitem_int_0_dict :
  forall x d,
    getitem_int x 0 = Ok (PDict d) <-> exists r, x = PList (PDict d :: r).
Proof.
  intros x d. split.
  - destruct x; simpl; try discriminate; rewrite seq_item_0.
    + destruct (chars_head s) as [-> | [t ->]]; discriminate.
    + destruct l as [|y r]; simpl; [discriminate|].
      intro H. inversion H; subst. eauto.
  - intros (r & ->). reflexivity.
Qed.

Lemma dates_of_Ok :
  forall data dates,
    dates_of data = Ok dates <->
    exists top block r1 coordinate r2,
      data = PDict top /\
      dict_find top "data" = Some (PList (PDict block :: r1)) /\
      dict_find block "coordinates" = Some (PList (PDict coordinate :: r2)) /\
      dict_find coordinate "dates" = Some dates.
Proof.
  intros data dates. unfold dates_of. split.
  - intro H.
    apply obind_Ok in H. destruct H as (a & Ha & H).
    apply obind_Ok in H. destruct H as (b & Hb & H).
    apply obind_Ok in H. destruct H as (c & Hc & H).
    apply obind_Ok in H. destruct H as (d & Hd & H).
    apply getitem_str_Ok in H. destruct H as (coordinate & -> & H).
    apply getitem_int_0_dict in Hd. destruct Hd as (r2 & ->).
    apply getitem_str_Ok in Hc. destruct Hc as (block & -> & Hc).
    apply getitem_int_0_dict in Hb. destruct Hb as (r1 & ->).
    apply getitem_str_Ok in Ha. destruct Ha as (top & -> & Ha).
    exists top, block, r1, coordinate, r2. auto.
  - intros (top & block & r1 & coordinate & r2 & -> & H1 & H2 & H3).
    simpl. rewrite H1. simpl. rewrite H2. simpl. rewrite H3. reflexivity.
Qed.

(** X7.  The value of the current weather is extracted exactly from the
    documents of the nested shape: an object whose "data" is a list
    starting with an object, whose "coordinates" is a list starting with
    an object, whose "dates" is a list starting with an object that has a
    "value".  Only the first block, coordinate and sample are read; any
    other document raises, and so becomes an error text. *)
Theorem first_value_of_shape :
  forall data v,
    first_value_of data = Ok v <->
    exists top block r1 coordinate r2 first r3,
      data = PDict top /\
      dict_find top "data" = Some (PList (PDict block :: r1)) /\
      dict_find block "coordinates" = Some (PList (PDict coordinate :: r2)) /\
      dict_find coordinate "dates" = Some (PList (PDict first :: r3)) /\
      dict_find first "value" = Some v.
Proof.
  intros data v. unfold first_value_of. split.
  - intro H.
    apply obind_Ok in H. destruct H as (dates & Hd & H).
    apply obind_Ok in H. destruct H as (smp & Hs & H).
    apply getitem_str_Ok in H. destruct H as (first & -> & H).
    apply getitem_int_0_dict in Hs. destruct Hs as (r3 & ->).
    apply dates_of_Ok in Hd.
    destruct Hd as (top & block & r1 & coordinate & r2 & -> & H1 & H2 & H3).
    exists top, block, r1, coordinate, r2, first, r3. auto.
  - intros (top & block & r1 & coordinate & r2 & first & r3 & -> & H1 & H2 & H3 & H4).
    assert (Hd : dates_of (PDict top) = Ok (PList (PDict first :: r3))).
    { apply dates_of_Ok. exists top, block, r1, coordinate, r2. auto. }
    rewrite Hd. simpl. now rewrite H4.
Qed.

(* ================================================================== *)
(** ** Further properties: the display of the forecast                 *)
(* ================================================================== *)

(** X8.  When the forecast cannot be fetched, [display_5_day_forecast]
    does not show the error text: it writes its header, takes the first
    character of the text for the temperature series, and fails with a
    [TypeError] on the first "day". *)
Theorem display_forecast_failure_raises :
  forall rt up w,
    retrieval_failed rt dates_of
      (forecast_answer rt up w 0 ("t_2m:F/" ++ LATITUDE ++ "," ++ LONGITUDE)) \/
    retrieval_failed rt dates_of
      (forecast_answer rt up w 1
         ("weather_symbol_1h:idx/" ++ LATITUDE ++ "," ++ LONGITUDE)) ->
    exists e w',
      display_5_day_forecast rt up w = (Raise e, w') /\
      exn_cls e = TypeError /\
      page w' = (page w ++ [st_header "5-Day Weather Outlook for McDonough, GA"])%list.
Proof.
  intros rt up w H.
  unfold display_5_day_forecast. unfold bind at 1. unfold st at 1.
  unfold bind at 1. rewrite fetch_5_day_forecast_run. cbv zeta.
  change (forecast_answer rt up
            (mkWorld (ticks w) (sent w)
               (page w ++ [st_header "5-Day Weather Outlook for McDonough, GA"])))
    with (forecast_answer rt up w).
  remember ("t_2m:F/" ++ LATITUDE ++ "," ++ LONGITUDE) as ep0 eqn:E0.
  remember ("weather_symbol_1h:idx/" ++ LATITUDE ++ "," ++ LONGITUDE) as ep1 eqn:E1.
  clear E0 E1.
  destruct (retrieve_cases rt dates_of (forecast_answer rt up w 0 ep0))
    as [(e & -> & Hf)|(temperatures & -> & Hr)].
  - eexists. eexists. split; [reflexivity|]. split; reflexivity.
  - assert (Hs : retrieval_failed rt dates_of (forecast_answer rt up w 1 ep1)).
    { destruct H as [H|H]; [|exact H].
      destruct (retrieve_failed _ _ _ H) as [e He].
      rewrite (retrieve_retrieved _ _ _ _ Hr) in He. discriminate He. }
    destruct (retrieve_failed _ _ _ Hs) as [e ->].
    eexists. eexists. split; [reflexivity|]. split; reflexivity.
Qed.

Lemma display_forecast_failure_raises_witness :
  exists e w',
    display_5_day_forecast sample_rt failing_temperature_upstream w0 = (Raise e, w') /\
    exn_cls e = TypeError /\
    page w' = (page w0 ++ [st_header "5-Day Weather Outlook for McDonough, GA"])%list.
Proof.
  apply (display_forecast_failure_raises sample_rt failing_temperature_upstream w0).
  left. apply status_not_ok. reflexivity.
Defined.

Lemma for_each_app :
  forall (X S R : Type) (a b : list X) (body : X -> S -> M (flow S R)) (s : S) (w : World),
    for_each (a ++ b) body s w
    = match for_each a body s w with
      | (Ok (Continue s'), w') => for_each b body s' w'
      | r => r
      end.
Proof.
  induction a as [|x a IH]; intros b body s w.
  - reflexivity.
  - cbn [app for_each]. unfold bind.
    destruct (body x s w) as [[[s'|r]|e] w']; try reflexivity.
    apply IH.
Qed.

(** One turn of the loop, for a sample whose day is looked up. *)
Lemma display_day_shown :
  forall temperatures symbols t d w,
    shown_day temperatures symbols t d ->
    display_day (PList [PList temperatures; PList symbols]) t tt w
    = (Ok (Continue tt), written w (render_day d)).
Proof.
  intros temperatures symbols t d w
    (j & s & Hi & Hs & v & code & Hdate & Hval & Hv & Hc & Hr).
  unfold display_day, bind, lift.
  rewrite Hdate, Hval.
  change (getitem_int (PList [PList temperatures; PList symbols]) 1)
    with (@Ok pyval (PList symbols)).
  change (getitem_int (PList [PList temperatures; PList symbols]) 0)
    with (@Ok pyval (PList temperatures)).
  cbv beta iota. unfold py_index. rewrite Hi.
  unfold getitem_int. rewrite (seq_item_nat _ _ _ _ Hs).
  rewrite Hv, Hc, Hr. unfold st, ret, written, render_day. cbn [ticks sent page].
  rewrite <- !app_assoc. reflexivity.
Qed.

Lemma display_loop_shown :
  forall temperatures symbols rest days,
    Forall2 (shown_day temperatures symbols) rest days ->
    forall w,
      for_each rest (display_day (PList [PList temperatures; PList symbols])) tt w
      = (Ok (Continue tt), written w (flat_map render_day days)).
Proof.
  induction 1 as [|t d rest days Hd _ IH]; intro w.
  - simpl. unfold ret. now rewrite written_nil.
  - cbn [for_each flat_map]. unfold bind.
    rewrite (display_day_shown _ _ _ _ _ Hd), IH. now rewrite written_written.
Qed.

(** X9.  What the aggregator shows in general: for each temperature sample,
    in order, the day made of that sample and of the symbol sample at the
    position where [index] first finds an equal temperature sample. *)
Theorem display_days_by_first_equal_sample :
  forall temperatures symbols days w,
    Forall2 (shown_day temperatures symbols) temperatures days ->
    display_days (PList [PList temperatures; PList symbols]) w
    = (Ok tt, written w (flat_map render_day days)).
Proof.
  intros temperatures symbols days w H.
  unfold display_days, bind, lift.
  change (getitem_int (PList [PList temperatures; PList symbols]) 0)
    with (@Ok pyval (PList temperatures)).
  cbv beta iota. cbn [py_iter].
  rewrite (display_loop_shown _ _ _ _ H). reflexivity.
Qed.

Lemma display_days_by_first_equal_sample_witness :
  display_days (PList [PList temperatures_twice; PList symbols_twice]) w0
  = (Ok tt,
     written w0
       (flat_map render_day
          [ mkForecastDay (PStr d1) (PInt 70) "Clear sky" "☀️";
            mkForecastDay (PStr d1) (PInt 70) "Clear sky" "☀️" ])).
Proof.
  apply display_days_by_first_equal_sample.
  constructor; [|constructor; [|constructor]].
  - exists 0%nat, (sample d1 (PStr "1")). repeat split.
    exists (PStr "1"), 1. repeat split.
  - exists 0%nat, (sample d1 (PStr "1")). repeat split.
    exists (PStr "1"), 1. repeat split.
Defined.

(** Samples that join position by position are the ones the loop looks up,
    when no two temperature samples are equal. *)
Lemma joined_series_shown :
  forall rest_t rest_s days,
    joined_series rest_t rest_s days ->
    forall before_t before_s after extra,
      List.length before_t = List.length before_s ->
      distinct_samples (before_t ++ rest_t ++ after) ->
      Forall2 (shown_day (before_t ++ rest_t ++ after) (before_s ++ rest_s ++ extra))
        rest_t days.
Proof.
  induction 1 as [|t s d ts ss ds Hj Hjs IH];
    intros before_t before_s after extra Hl Hd.
  - constructor.
  - constructor.
    + exists (List.length before_t), s. split; [|split; [|exact Hj]].
      * apply list_index_distinct; [exact Hd|].
        rewrite nth_error_app2, Nat.sub_diag by lia. reflexivity.
      * rewrite nth_error_app2 by lia. rewrite Hl, Nat.sub_diag. reflexivity.
    + specialize (IH (before_t ++ [t])%list (before_s ++ [s])%list after extra).
      rewrite <- !app_assoc in IH. cbn [app] in IH.
      apply IH; [|exact Hd].
      rewrite !length_app. simpl. lia.
Qed.

Lemma seq_item_beyond :
  forall (A : Type) (l : list A) (n : nat),
    (List.length l <= n)%nat -> seq_item l (Z.of_nat n) = None.
Proof.
  intros A l n H. unfold seq_item.
  destruct (Z.ltb_spec (Z.of_nat n) 0) as [F|_]; [lia|].
  destruct (Z.ltb_spec (Z.of_nat n) (Z.of_nat (List.length l))) as [F|_]; [lia|].
  now rewrite andb_false_r.
Qed.

(** X10.  When the symbol series is shorter than the temperature series
    (samples pairwise different), the days that have a symbol are written,
    and the first temperature sample without one makes the loop fail with
    an [IndexError]: nothing is written for that day or the later ones. *)
Theorem display_days_short_symbols :
  forall served t later symbols days date temperature w,
    distinct_samples (served ++ t :: later) ->
    joined_series served symbols days ->
    getitem_str t "date" = Ok date ->
    getitem_str t "value" = Ok temperature ->
    display_days (PList [PList (served ++ t :: later); PList symbols]) w
    = (Raise (mk_exn IndexError "list index out of range"),
       written w (flat_map render_day days)).
Proof.
  intros served t later symbols days date temperature w Hd Hj Hdate Hval.
  unfold display_days. unfold bind at 1. unfold lift at 1.
  change (getitem_int (PList [PList (served ++ t :: later); PList symbols]) 0)
    with (@Ok pyval (PList (served ++ t :: later))).
  cbv beta iota. unfold bind at 1. cbn [py_iter]. unfold lift at 1.
  unfold bind at 1. rewrite for_each_app.
  pose proof (joined_series_shown _ _ _ Hj [] [] (t :: later) [] eq_refl Hd) as Hs.
  cbn [app] in Hs. rewrite app_nil_r in Hs.
  rewrite (display_loop_shown _ _ _ _ Hs).
  cbn [for_each]. unfold bind at 1.
  assert (Ht : display_day (PList [PList (served ++ t :: later); PList symbols]) t tt
                 (written w (flat_map render_day days))
               = (Raise (mk_exn IndexError "list index out of range"),
                  written w (flat_map render_day days))).
  { unfold display_day, bind, lift. rewrite Hdate, Hval.
    change (getitem_int (PList [PList (served ++ t :: later); PList symbols]) 1)
      with (@Ok pyval (PList symbols)).
    change (getitem_int (PList [PList (served ++ t :: later); PList symbols]) 0)
      with (@Ok pyval (PList (served ++ t :: later))).
    cbv beta iota. unfold py_index.
    rewrite (list_index_distinct _ (List.length served) t Hd)
      by (rewrite nth_error_app2, Nat.sub_diag by lia; reflexivity).
    unfold getitem_int. rewrite seq_item_beyond; [reflexivity|].
    clear - Hj. induction Hj; simpl; lia. }
  rewrite Ht. reflexivity.
Qed.

Lemma display_days_short_symbols_witness :
  display_days (PList [PList temperatures_12; PList symbols_short]) w0
  = (Raise (mk_exn IndexError "list index out of range"),
     written w0 (render_day (mkForecastDay (PStr d1) (PInt 70) "Clear sky" "☀️") ++ [])).
Proof.
  apply (display_days_short_symbols [sample d1 (PInt 70)] (sample d2 (PInt 75)) []
           symbols_short [mkForecastDay (PStr d1) (PInt 70) "Clear sky" "☀️"]
           (PStr d2) (PInt 75) w0).
  - exact temperatures_12_distinct.
  - repeat constructor. exists (PStr "1"), 1. repeat split.
  - reflexivity.
  - reflexivity.
Defined.

(** X11.  Symbol samples beyond the length of the temperature series are
    never read: with pairwise different temperature samples, the page is
    the one of the positional join with the first symbols, whatever
    follows them in the symbol series. *)
Theorem display_days_extra_symbols :
  forall temperatures symbols extra days w,
    distinct_samples temperatures ->
    joined_series temperatures symbols days ->
    display_days (PList [PList temperatures; PList (symbols ++ extra)]) w
    = (Ok tt, written w (flat_map render_day days)).
Proof.
  intros temperatures symbols extra days w Hd Hj.
  pose proof (joined_series_shown _ _ _ Hj [] [] [] extra eq_refl) as Hs.
  cbn [app] in Hs. rewrite app_nil_r in Hs. specialize (Hs Hd).
  unfold display_days, bind, lift.
  change (getitem_int (PList [PList temperatures; PList (symbols ++ extra)]) 0)
    with (@Ok pyval (PList temperatures)).
  cbv beta iota. cbn [py_iter].
  rewrite (display_loop_shown _ _ _ _ Hs). reflexivity.
Qed.

Lemma display_days_extra_symbols_witness :
  display_days (PList [PList temperatures_12; PList symbols_long]) w0
  = (Ok tt,
     written w0
       (flat_map render_day
          [ mkForecastDay (PStr d1) (PInt 70) "Clear sky" "☀️";
            mkForecastDay (PStr d2) (PInt 75) "Rain" "🌧" ])).
Proof.
  apply (display_days_extra_symbols temperatures_12 symbols_12
           [sample "2024-06-03T00:00:00Z" (PInt 7)]).
  - exact temperatures_12_distinct.
  - repeat constructor.
    + exists (PStr "1"), 1. repeat split.
    + exists (PStr "5"), 5. repeat split.
Defined.

(* ================================================================== *)
(** ** Further properties: the current weather symbol in [main]        *)
(* ================================================================== *)

Lemma lstrip_keeps_last :
  forall c x,
    is_space c = false -> exists x', lstrip (x ++ [c]) = (x' ++ [c])%list.
Proof.
  intros c x Hc. induction x as [|a x IH]; simpl.
  - rewrite Hc. now exists [].
  - destruct (is_space a); [exact IH|]. now exists (a :: x).
Qed.

Lemma strip_keeps_head :
  forall c l, is_space c = false -> exists l', strip (c :: l) = c :: l'.
Proof.
  intros c l Hc. unfold strip. cbn [lstrip]. rewrite Hc. cbn [rev].
  destruct (lstrip_keeps_last c (rev l) Hc) as [x' ->].
  rewrite rev_app_distr. simpl. eauto.
Qed.

(** A text that starts with the letter E is no integer literal. *)
Lemma parse_int_error_text :
  forall s, parse_int (String "E" s) = None.
Proof.
  intro s. unfold parse_int, int_literal. cbn [list_ascii_of_string].
  change (code_points ("E"%char :: list_ascii_of_string s))
    with (Some 69%N :: code_points (list_ascii_of_string s)).
  cbn [transform].
  change (ascii_of_code_point (Some 69%N)) with (Some "E"%char).
  destruct (transform (code_points (list_ascii_of_string s))) as [l|];
    [|reflexivity].
  destruct (strip_keeps_head "E"%char l eq_refl) as [l' ->].
  reflexivity.
Qed.

(** X12.  The conversion of the current symbol in [main] leaves the world
    as it is, gives 0 when the mapping has no weather_symbol, and fails
    exactly when the value is an infinite float (the [OverflowError] of
    [int] is not among the exceptions the handler catches). *)
Theorem current_symbol_id_raises_iff_infinite :
  forall weather_data w,
    snd (current_symbol_id weather_data w) = w /\
    (dict_find weather_data "weather_symbol" = None ->
     fst (current_symbol_id weather_data w) = Ok 0) /\
    ((exists e, fst (current_symbol_id weather_data w) = Raise e) <->
     (exists s, dict_find weather_data "weather_symbol"
                = Some (PFloat (S754_infinity s)))).
Proof.
  intros weather_data w.
  unfold current_symbol_id, try_except, lift, dict_get.
  destruct (dict_find weather_data "weather_symbol") as [v|]; cbn.
  - destruct v as [| b | z | f | s | l | d]; cbn;
      try (split; [reflexivity|]; split; [discriminate|];
           split; [intros [e H]; discriminate H | intros [s' H]; discriminate H]).
    + destruct f as [s | s | | s m e]; cbn;
        try (split; [reflexivity|]; split; [discriminate|];
             split; [intros [e' H]; discriminate H | intros [s' H]; discriminate H]).
      split; [reflexivity|]. split; [discriminate|]. split; eauto.
    + destruct (parse_int s); cbn;
        (split; [reflexivity|]; split; [discriminate|];
         split; [intros [e H]; discriminate H | intros [s' H]; discriminate H]).
  - split; [reflexivity|]. split; [reflexivity|].
    split; [intros [e H]; discriminate H | intros [s' H]; discriminate H].
Qed.

(** X13.  When the retrieval of the weather_symbol parameter fails, [main]
    converts the error text that [fetch_weather_data] stored for it to the
    code 0, and so shows "A weather symbol could not be determined". *)
Theorem failed_symbol_shows_undetermined :
  forall rt up latitude longitude w weather_data w1,
    fetch_weather_data rt up latitude longitude w = (Ok weather_data, w1) ->
    retrieval_failed rt first_value_of
      (current_answer rt up w 1
         ("weather_symbol_1h:idx/" ++ latitude ++ "," ++ longitude)) ->
    forall w2,
      current_symbol_id weather_data w2 = (Ok 0, w2) /\
      get_weather_symbol_description 0
      = ("A weather symbol could not be determined", "❓").
Proof.
  intros rt up latitude longitude w weather_data w1 Hf Hr w2.
  split; [|reflexivity].
  rewrite fetch_weather_data_run in Hf. cbv zeta in Hf.
  destruct (retrieve_failed _ _ _ Hr) as [e He]. rewrite He in Hf.
  inversion Hf; subst weather_data. clear Hf.
  unfold current_symbol_id, try_except, lift, dict_get.
  cbn [dict_find String.eqb Ascii.eqb Bool.eqb entry_of].
  cbn [py_int append]. rewrite parse_int_error_text. reflexivity.
Qed.

Lemma failed_symbol_shows_undetermined_witness :
  current_symbol_id
    (match fst (fetch_weather_data sample_rt mixed_upstream LATITUDE LONGITUDE w0) with
     | Ok weather_data => weather_data
     | Raise _ => []
     end) w_later
  = (Ok 0, w_later).
Proof.
  refine (proj1 (failed_symbol_shows_undetermined sample_rt mixed_upstream
                   LATITUDE LONGITUDE w0 _ _ _ _ w_later)).
  - rewrite fetch_weather_data_run. reflexivity.
  - apply status_not_ok. reflexivity.
Defined.

(* ================================================================== *)
(** ** Further properties: [main]                                      *)
(* ================================================================== *)

(** The whole run of the feed reader. *)
Lemma fetch_feed_run :
  forall rt up feed_url w,
    fetch_first_description_from_rss rt up feed_url w
    = (Ok (feed_text rt (feed_answer up w feed_url)),
       requested w [mkRequest feed_url None]).
Proof.
  intros rt up feed_url w. unfold feed_text.
  destruct (obind (feed_answer up w feed_url)
              (fun response => fromstring rt (content response))) as [root|e] eqn:E.
  - destruct (feed_answer up w feed_url) as [response|e] eqn:Ha; simpl in E;
      [|discriminate].
    now rewrite (fetch_feed_parsed _ _ _ _ _ _ Ha E).
  - now rewrite (fetch_feed_raised _ _ _ _ _ E).
Qed.

(** A turn of the display loop only adds to the page. *)
Lemma display_day_extends :
  forall forecast_data day w,
    exists calls, snd (display_day forecast_data day tt w) = written w calls.
Proof.
  intros forecast_data day w. unfold display_day, bind, lift.
  destruct (getitem_str day "date") as [date|e];
    [|exists []; now rewrite written_nil].
  destruct (getitem_str day "value") as [temperature|e];
    [|exists []; now rewrite written_nil].
  destruct (getitem_int forecast_data 1) as [symbols|e];
    [|exists []; now rewrite written_nil].
  destruct (getitem_int forecast_data 0) as [temperatures|e];
    [|exists []; now rewrite written_nil].
  destruct (py_index temperatures day) as [i|e];
    [|exists []; now rewrite written_nil].
  destruct (getitem_int symbols i) as [smp|e];
    [|exists []; now rewrite written_nil].
  destruct (getitem_str smp "value") as [v|e];
    [|exists []; now rewrite written_nil].
  destruct (py_int v) as [symbol_id|e];
    [|exists []; now rewrite written_nil].
  destruct (get_weather_symbol_description symbol_id) as [description icon].
  eexists. unfold st, ret, written. cbn [fst snd ticks sent page].
  rewrite <- !app_assoc. reflexivity.
Qed.

Lemma display_loop_extends :
  forall forecast_data days w,
    exists calls,
      snd (for_each days (display_day forecast_data) tt w) = written w calls.
Proof.
  intros forecast_data days. induction days as [|day days IH]; intro w.
  - exists []. simpl. now rewrite written_nil.
  - cbn [for_each]. unfold bind.
    destruct (display_day_extends forecast_data day w) as [c1 H1].
    destruct (display_day forecast_data day tt w) as [[[[]|r]|e] w1];
      simpl in H1; subst w1.
    + destruct (IH (written w c1)) as [c2 H2]. rewrite H2.
      exists (c1 ++ c2)%list. apply written_written.
    + now exists c1.
    + now exists c1.
Qed.

Lemma display_days_extends :
  forall forecast_data w,
    exists calls, snd (display_days forecast_data w) = written w calls.
Proof.
  intros forecast_data w. unfold display_days, bind, lift.
  destruct (getitem_int forecast_data 0) as [temperatures|e];
    [|exists []; now rewrite written_nil].
  destruct (py_iter temperatures) as [days|e];
    [|exists []; now rewrite written_nil].
  destruct (display_loop_extends forecast_data days w) as [calls H].
  destruct (for_each days (display_day forecast_data) tt w) as [[f|e] w1];
    simpl in H; subst w1; now exists calls.
Qed.

(** [display_5_day_forecast] only adds to the page and to the requests. *)
Lemma display_forecast_extends :
  forall rt up w,
    exists calls rqs t,
      snd (display_5_day_forecast rt up w)
      = mkWorld t (sent w ++ rqs) (page w ++ calls).
Proof.
  intros rt up w. unfold display_5_day_forecast.
  unfold bind at 1. unfold st at 1. unfold bind at 1.
  rewrite fetch_5_day_forecast_run. cbv zeta.
  repeat match goal with
         | |- context [retrieve rt dates_of ?a] => destruct (retrieve rt dates_of a)
         end.
  all: match goal with
       | |- context [display_days ?fd ?w1] =>
           destruct (display_days_extends fd w1) as [calls H]; rewrite H
       end.
  all: eexists; eexists; eexists; unfold written; cbn [ticks page sent];
    rewrite <- app_assoc; reflexivity.
Qed.

Lemma bind_st :
  forall (A : Type) (c : st_call) (k : unit -> M A) (w : World),
    bind (st c) k w = k tt (written w [c]).
Proof. reflexivity. Qed.

Lemma bind_run :
  forall (A B : Type) (m : M A) (k : A -> M B) (w w' : World) (a : A),
    m w = (Ok a, w') -> bind m k w = k a w'.
Proof. intros A B m k w w' a H. unfold bind. now rewrite H. Qed.

Lemma current_symbol_id_keeps_world :
  forall weather_data w, snd (current_symbol_id weather_data w) = w.
Proof.
  intros weather_data w. unfold current_symbol_id, try_except, lift.
  destruct (py_int (dict_get weather_data "weather_symbol" (PInt 0))) as [code|e];
    [reflexivity|].
  now destruct (isinstance e TypeError || isinstance e ValueError).
Qed.

(** The first part of [main], up to the line of the temperature: it cannot
    fail, and leaves the rest of [main] in a world that is known. *)
Lemma main_run :
  forall rt up w,
    let rq_nhc := mkRequest RSS_FEED_NHC None in
    let rq_spc := mkRequest RSS_FEED_SPC None in
    let nhc := feed_text rt (feed_answer up w RSS_FEED_NHC) in
    let spc := feed_text rt (feed_answer up (requested w [rq_nhc]) RSS_FEED_SPC) in
    let wf := requested w [rq_nhc; rq_spc] in
    exists weather_data,
      fst (fetch_weather_data rt up LATITUDE LONGITUDE wf) = Ok weather_data /\
      main rt up w
      = (weather_symbol_id <- current_symbol_id weather_data ;;
         let '(symbol_description, symbol_icon) :=
           get_weather_symbol_description weather_symbol_id in
         st (st_write [Lit "**Weather Symbol**: "; Fmt (PStr symbol_icon); Lit " ";
                       Fmt (PStr symbol_description)]) ;;
         st (st_write [Lit "**Heavy Rain Warning**: ";
                       Fmt (dict_get weather_data "heavy_rain_warning" PNone);
                       Lit " mm"]) ;;
         st (st_write [Lit "**Air Quality (PM2.5)**: ";
                       Fmt (dict_get weather_data "air_quality" PNone);
                       Lit " µg/m³"]) ;;
         display_5_day_forecast rt up)
          (mkWorld (ticks w + 4)
             (sent w ++ [rq_nhc; rq_spc] ++
              map (fun kpe : nat * (string * string) =>
                     mkRequest
                       (current_url rt (clock up (ticks w + fst kpe)) (snd (snd kpe)))
                       (Some (username rt, password rt)))
                (combine (seq 0 4) (current_params LATITUDE LONGITUDE)))
             (page w ++
              [ st_title "Tropics & Severe Weather Dashboard";
                st_title "NHC Latest";
                st_markdown (banner "#FF0000" "6px" [Lit "🌀 "; Fmt nhc]) true;
                st_title "SPC Alerts";
                st_markdown (banner "#007BFF" "10px" [Lit "⛈️ "; Fmt spc]) true;
                st_header "Current Weather in McDonough, GA:";
                st_write [Lit "**Temperature**: ";
                          Fmt (dict_get weather_data "temperature" PNone);
                          Lit " °F"] ])).
Proof.
  intros rt up w rq_nhc rq_spc nhc spc wf.
  rewrite fetch_weather_data_run. cbv zeta. eexists. split; [reflexivity|].
  unfold main.
  rewrite !bind_st.
  erewrite bind_run by apply fetch_feed_run.
  rewrite !bind_st.
  erewrite bind_run by apply fetch_feed_run.
  rewrite !bind_st.
  erewrite bind_run by (rewrite fetch_weather_data_run; reflexivity).
  rewrite !bind_st.
  unfold written, requested, feed_answer, current_answer.
  cbn [ticks sent page].
  rewrite <- !app_assoc. cbn [app].
  rewrite !length_app. cbn [List.length].
  rewrite <- !Nat.add_assoc. cbn [Nat.add].
  subst nhc spc wf rq_nhc rq_spc. unfold feed_answer, requested. cbn [ticks sent page].
  rewrite !length_app. cbn [List.length].
  rewrite <- !Nat.add_assoc. cbn [Nat.add combine seq map fst snd current_params].
  reflexivity.
Qed.

(** X14.  Whatever the feeds and the measurement API answer, and even when
    [main] fails later on, the page starts with the title, the two banners
    holding what the feed reader returned for the NHC and the SPC feed, the
    header of the current weather and the line of the temperature; and the
    requests start with the two feeds (without credentials) followed by
    the four parameters of the current weather. *)
Theorem main_top_of_page :
  forall rt up w,
    let rq_nhc := mkRequest RSS_FEED_NHC None in
    let rq_spc := mkRequest RSS_FEED_SPC None in
    let nhc := feed_text rt (feed_answer up w RSS_FEED_NHC) in
    let spc := feed_text rt (feed_answer up (requested w [rq_nhc]) RSS_FEED_SPC) in
    exists weather_data calls rqs,
      fst (fetch_weather_data rt up LATITUDE LONGITUDE (requested w [rq_nhc; rq_spc]))
      = Ok weather_data /\
      page (snd (main rt up w))
      = (page w ++
         [ st_title "Tropics & Severe Weather Dashboard";
           st_title "NHC Latest";
           st_markdown (banner "#FF0000" "6px" [Lit "🌀 "; Fmt nhc]) true;
           st_title "SPC Alerts";
           st_markdown (banner "#007BFF" "10px" [Lit "⛈️ "; Fmt spc]) true;
           st_header "Current Weather in McDonough, GA:";
           st_write [Lit "**Temperature**: ";
                     Fmt (dict_get weather_data "temperature" PNone);
                     Lit " °F"] ] ++ calls)%list /\
      sent (snd (main rt up w))
      = (sent w ++ [rq_nhc; rq_spc] ++
         map (fun kpe : nat * (string * string) =>
                mkRequest
                  (current_url rt (clock up (ticks w + fst kpe)) (snd (snd kpe)))
                  (Some (username rt, password rt)))
           (combine (seq 0 4) (current_params LATITUDE LONGITUDE)) ++ rqs)%list.
Proof.
  intros rt up w rq_nhc rq_spc nhc spc.
  destruct (main_run rt up w) as (weather_data & Hw & Hm).
  exists weather_data. rewrite Hm. clear Hm.
  match goal with
  | |- context [snd ?x] => remember x as run eqn:R
  end.
  unfold bind at 1 in R.
  match type of R with
  | context [current_symbol_id weather_data ?w1] =>
      pose proof (current_symbol_id_keeps_world weather_data w1) as K;
        destruct (current_symbol_id weather_data w1) as [[code|e] w2];
        cbn [snd] in K; subst w2
  end.
  - destruct (get_weather_symbol_description code) as [description icon].
    rewrite !bind_st in R.
    match type of R with
    | context [display_5_day_forecast rt up ?w1] =>
        destruct (display_forecast_extends rt up w1) as (calls & rqs & t & H)
    end.
    rewrite <- R in H. rewrite H. clear R H.
    unfold written. cbn [ticks sent page].
    eexists. exists rqs. split; [exact Hw|]. split.
    + rewrite <- ?app_assoc. cbn [app]. reflexivity.
    + rewrite <- ?app_assoc. reflexivity.
  - subst run. exists [], []. split; [exact Hw|].
    cbn [snd page sent]. rewrite !app_nil_r. split; reflexivity.
Qed.

(** The display loop on an error text: the first character is no mapping. *)
Lemma display_days_error_text :
  forall s w,
    display_days (PStr (String "E" s)) w
    = (Raise (mk_exn TypeError "string indices must be integers, not 'str'"), w).
Proof. reflexivity. Qed.

(** X15.  A forecast that cannot be fetched makes the whole of [main] end
    with an exception, after the top of the page and the current weather
    were written: a [TypeError] from the display of the forecast, unless
    the conversion of the current symbol has failed before with an
    [OverflowError]. *)
Theorem main_raises_when_forecast_fails :
  forall rt up w,
    retrieval_failed rt dates_of
      (forecast_answer rt up (before_forecast rt up w) 0
         ("t_2m:F/" ++ LATITUDE ++ "," ++ LONGITUDE)) \/
    retrieval_failed rt dates_of
      (forecast_answer rt up (before_forecast rt up w) 1
         ("weather_symbol_1h:idx/" ++ LATITUDE ++ "," ++ LONGITUDE)) ->
    exists e,
      fst (main rt up w) = Raise e /\
      (exn_cls e = TypeError \/ exn_cls e = OverflowError).
Proof.
  intros rt up w H.
  destruct (main_run rt up w) as (weather_data & _ & Hm). rewrite Hm. clear Hm.
  match goal with
  | |- context [bind _ ?k ?w1] =>
      assert (Hk : forall code, exists e,
                 fst (k code w1) = Raise e /\ exn_cls e = TypeError)
  end.
  { intro code. cbv beta.
    destruct (get_weather_symbol_description code) as [description icon].
    rewrite !bind_st. unfold display_5_day_forecast. rewrite bind_st.
    unfold bind at 1. rewrite fetch_5_day_forecast_run. cbv zeta.
    unfold written. cbn [ticks sent page].
    change (forecast_answer rt up (mkWorld (ticks w + 4) ?s ?p))
      with (forecast_answer rt up (before_forecast rt up w)).
    remember ("t_2m:F/" ++ LATITUDE ++ "," ++ LONGITUDE) as ep0 eqn:E0.
    remember ("weather_symbol_1h:idx/" ++ LATITUDE ++ "," ++ LONGITUDE) as ep1 eqn:E1.
    clear E0 E1.
    destruct (retrieve_cases rt dates_of
                (forecast_answer rt up (before_forecast rt up w) 0 ep0))
      as [(e & -> & Hf)|(temperatures & -> & Hr)].
    - eexists. split; reflexivity.
    - assert (Hs : retrieval_failed rt dates_of
                     (forecast_answer rt up (before_forecast rt up w) 1 ep1)).
      { destruct H as [H|H]; [|exact H].
        destruct (retrieve_failed _ _ _ H) as [e He].
        rewrite (retrieve_retrieved _ _ _ _ Hr) in He. discriminate He. }
      destruct (retrieve_failed _ _ _ Hs) as [e ->].
      eexists. split; reflexivity. }
  unfold bind at 1. unfold current_symbol_id, try_except, lift.
  destruct (py_int (dict_get weather_data "weather_symbol" (PInt 0)))
    as [code|e] eqn:E.
  - destruct (Hk code) as (e & He & Hc). exists e. split; [exact He|now left].
  - unfold isinstance.
    destruct (py_int_raises _ _ E) as [Hc|[Hc|Hc]]; rewrite Hc; cbn.
    + destruct (Hk 0) as (e' & He & Hc'). exists e'. split; [exact He|now left].
    + destruct (Hk 0) as (e' & He & Hc'). exists e'. split; [exact He|now left].
    + exists e. split; [reflexivity|now right].
Qed.

Lemma main_raises_when_forecast_fails_witness :
  exists e,
    fst (main sample_rt down_upstream w0) = Raise e /\
    (exn_cls e = TypeError \/ exn_cls e = OverflowError).
Proof.
  apply (main_raises_when_forecast_fails sample_rt down_upstream w0).
  left.
  exact (request_raised sample_rt dates_of
           (mk_exn ConnectionError "Max retries exceeded")).
Defined.

(** X16.  When both series are retrieved, no two temperature samples are
    equal and the series join position by position into [days],
    [display_5_day_forecast] ends normally: the page gets the header and
    then the four lines of each day in order, after one reading of the
    clock and the two requests. *)
Theorem display_forecast_positional :
  forall rt up w temperatures symbols days,
    retrieved rt dates_of
      (forecast_answer rt up w 0 ("t_2m:F/" ++ LATITUDE ++ "," ++ LONGITUDE))
      (PList temperatures) ->
    retrieved rt dates_of
      (forecast_answer rt up w 1
         ("weather_symbol_1h:idx/" ++ LATITUDE ++ "," ++ LONGITUDE))
      (PList symbols) ->
    distinct_samples temperatures ->
    joined_series temperatures symbols days ->
    fst (display_5_day_forecast rt up w) = Ok tt /\
    page (snd (display_5_day_forecast rt up w))
    = (page w ++ st_header "5-Day Weather Outlook for McDonough, GA"
              :: flat_map render_day days)%list /\
    ticks (snd (display_5_day_forecast rt up w)) = S (ticks w) /\
    List.length (sent (snd (display_5_day_forecast rt up w)))
    = (List.length (sent w) + 2)%nat.
Proof.
  intros rt up w temperatures symbols days Ht Hs Hd Hj.
  assert (E : exists rqs,
             List.length rqs = 2%nat /\
             display_5_day_forecast rt up w
             = (Ok tt,
                mkWorld (S (ticks w)) (sent w ++ rqs)
                  (page w ++ st_header "5-Day Weather Outlook for McDonough, GA"
                          :: flat_map render_day days))).
  { unfold display_5_day_forecast. rewrite bind_st.
    unfold bind at 1. rewrite fetch_5_day_forecast_run. cbv zeta.
    change (forecast_answer rt up
              (written w [st_header "5-Day Weather Outlook for McDonough, GA"]))
      with (forecast_answer rt up w).
    rewrite (retrieve_retrieved _ _ _ _ Ht), (retrieve_retrieved _ _ _ _ Hs).
    rewrite (display_days_positional _ _ _ _ Hd Hj).
    eexists. split; [|unfold written; cbn [ticks sent page];
                      rewrite <- app_assoc; reflexivity].
    reflexivity. }
  destruct E as (rqs & Hl & ->). cbn [fst snd page ticks sent].
  rewrite length_app, Hl. repeat split.
Qed.

Lemma display_forecast_positional_witness :
  fst (display_5_day_forecast sample_rt (forecast_upstream "temperatures" "symbols") w0)
  = Ok tt /\
  page (snd (display_5_day_forecast sample_rt
               (forecast_upstream "temperatures" "symbols") w0))
  = (page w0 ++ st_header "5-Day Weather Outlook for McDonough, GA"
             :: flat_map render_day
                  [ mkForecastDay (PStr d1) (PInt 70) "Clear sky" "☀️";
                    mkForecastDay (PStr d2) (PInt 75) "Rain" "🌧" ])%list /\
  ticks (snd (display_5_day_forecast sample_rt
                (forecast_upstream "temperatures" "symbols") w0)) = S (ticks w0) /\
  List.length (sent (snd (display_5_day_forecast sample_rt
                            (forecast_upstream "temperatures" "symbols") w0)))
  = (List.length (sent w0) + 2)%nat.
Proof.
  apply (display_forecast_positional sample_rt
           (forecast_upstream "temperatures" "symbols") w0
           temperatures_12 symbols_12).
  - eexists. eexists. repeat split; reflexivity.
  - eexists. eexists. repeat split; reflexivity.
  - exact temperatures_12_distinct.
  - repeat constructor.
    + exists (PStr "1"), 1. repeat split.
    + exists (PStr "5"), 5. repeat split.
Defined.
